(** * Campaign workflow of the advertising marketplace front end

    A shallow embedding of the campaign components of the Next.js front end
    (dialogs, action bar, timeline, card, dispute page) together with the
    properties of the campaign lifecycle that the specification states
    about them.

    Conventions of the embedding:
    - a JavaScript string is a [string], one character per code unit (code
      units below 256); [String.length] stands for [.length];
    - a JavaScript number is a [JS.num] where only its order, its bounds and
      its special values matter: an exact rational or one of the IEEE
      special values, so that division by zero is visible; where the value
      itself matters (the amounts of a payment) it is a binary64 [float];
    - an optional field ([T | undefined]) is an [option];
    - an event handler is a function to the list of effects it performs, in
      program order; the answer of the HTTP layer is an explicit argument. *)

From Stdlib Require Import Floats.PrimFloat.
From Stdlib Require Import ZArith QArith String Ascii List Bool Lia Lqa.
From stdpp Require Import base strings pretty gmap.
Import ListNotations.

Local Open Scope string_scope.
Local Open Scope list_scope.

(** ** JavaScript values *)

Module JS.

(** [x] used as a condition, for [x : string | undefined]. *)
Definition truthy (x : option string) : bool :=
  match x with
  | Some s => negb (String.eqb s "")
  | None => false
  end.

(** [x || d] for [x : string | undefined]. *)
Definition or_else (x : option string) (d : string) : string :=
  if truthy x then default d x else d.

(** Numbers: exact rationals and the special values of IEEE 754. *)
Inductive num : Type :=
| NaN
| PInf
| NInf
| Fin (q : Q).

Definition Qsign (q : Q) : comparison := (q ?= 0)%Q.

Definition neg (a : num) : num :=
  match a with
  | NaN => NaN
  | PInf => NInf
  | NInf => PInf
  | Fin q => Fin (- q)
  end.

(** [a - b] *)
Definition sub (a b : num) : num :=
  match a, b with
  | NaN, _ | _, NaN => NaN
  | PInf, PInf | NInf, NInf => NaN
  | PInf, _ | _, NInf => PInf
  | NInf, _ | _, PInf => NInf
  | Fin x, Fin y => Fin (x - y)
  end.

(** An infinity carrying the sign [c]; no sign gives [NaN]. *)
Definition inf_of (c : comparison) : num :=
  match c with
  | Gt => PInf
  | Lt => NInf
  | Eq => NaN
  end.

Definition sign_of (a : num) : comparison :=
  match a with
  | NaN => Eq
  | PInf => Gt
  | NInf => Lt
  | Fin q => Qsign q
  end.

Definition sign_mul (c d : comparison) : comparison :=
  match c, d with
  | Eq, _ | _, Eq => Eq
  | Gt, Gt | Lt, Lt => Gt
  | _, _ => Lt
  end.

(** [a * b] *)
Definition mul (a b : num) : num :=
  match a, b with
  | NaN, _ | _, NaN => NaN
  | Fin x, Fin y => Fin (x * y)
  | _, _ => inf_of (sign_mul (sign_of a) (sign_of b))
  end.

(** [a / b]; a zero divisor is [+0], as the difference of two equal
    time values is. *)
Definition div (a b : num) : num :=
  match a, b with
  | NaN, _ | _, NaN => NaN
  | Fin x, Fin y =>
      match Qsign y with
      | Eq => inf_of (Qsign x)
      | _ => Fin (x / y)
      end
  | Fin _, _ => Fin 0
  | _, Fin y =>
      match Qsign y with
      | Lt => neg a
      | _ => a
      end
  | _, _ => NaN
  end.

(** [a < b] as JavaScript evaluates it: false as soon as one side is NaN. *)
Definition lt (a b : num) : bool :=
  match a, b with
  | NaN, _ | _, NaN => false
  | _, NInf => false
  | NInf, _ => true
  | PInf, _ => false
  | _, PInf => true
  | Fin x, Fin y => match (x ?= y)%Q with Lt => true | _ => false end
  end.

Definition gt (a b : num) : bool := lt b a.

(** [Math.min(a, b)] and [Math.max(a, b)]: NaN as soon as one argument is. *)
Definition Math_min (a b : num) : num :=
  match a, b with
  | NaN, _ | _, NaN => NaN
  | _, _ => if lt b a then b else a
  end.

Definition Math_max (a b : num) : num :=
  match a, b with
  | NaN, _ | _, NaN => NaN
  | _, _ => if lt a b then b else a
  end.

Definition of_Z (z : Z) : num := Fin (inject_Z z).

(** The number is finite and lies in the closed interval [lo, hi]. *)
Definition within (lo hi : Q) (a : num) : Prop :=
  match a with
  | Fin q => (lo <= q /\ q <= hi)%Q
  | _ => False
  end.

End JS.

(** ** Effects of the event handlers *)

(** The values of [z.enum(['post', 'story', 'video', 'integration'])], which
    the form picks from a select. *)
Inductive AdFormat : Type := post | story | video | integration.

Record CampaignCreate : Type := {
  cc_channel_id : string;
  cc_budget : Q;
  cc_start_date : string;
  cc_end_date : string;
  cc_ad_format : AdFormat;
  cc_creative_text : string;
  cc_creative_images : option (list string);
  cc_creative_video_url : option string;
}.

(** The kinds of proof of placement. *)
Definition proof_types : list string := ["screenshot"; "post_link"; "other"].

Inductive Decision : Type := refund | release_payment | partial_refund.

Record Resolution : Type := {
  rs_decision : Decision;
  rs_refund_amount : option JS.num;
  rs_notes : string;
}.

(** A request of the API client ([campaignsApi], [adminApi]), with the
    arguments the call site passes; an optional argument the call site
    leaves out is [None]. *)
Inductive ApiCall : Type :=
| acceptCampaign (campaignId : string) (owner_notes : option string)
| rejectCampaign (campaignId : string) (reason : string)
| cancelCampaign (campaignId : string)
| submitCampaign (campaignId : string) (proofUrl proofType : string)
| confirmCampaign (campaignId : string) (confirmed : bool)
    (disputeReason : option string)
| createCampaign (payload : CampaignCreate)
| resolveDispute (id : string) (payload : Resolution).

(** The answer to a request: the promise resolves (with the identifier of the
    campaign in the body) or rejects, possibly with
    [err.response.data.detail]. *)
Inductive Response : Type :=
| Resolved (id : string)
| Rejected (detail : option string).

Inductive Effect : Type :=
| Call (c : ApiCall)
| ToastSuccess (m : string)
| ToastError (m : string)
| Done            (* form.reset(); onOpenChange(false); onSuccess?.() *)
| RouterPush (url : string).

(** The requests among a handler's effects. *)
Fixpoint calls (es : list Effect) : list ApiCall :=
  match es with
  | [] => []
  | Call c :: es' => c :: calls es'
  | _ :: es' => calls es'
  end.

(** ** Validation schemas (zod) and form submission (react-hook-form) *)

(** An issue; a [fatal] one aborts the parse of the enclosing object, so that
    a refinement on that object does not run. *)
Record ZodIssue : Type := { path : string; message : string; fatal : bool }.

Definition issue (p m : string) : ZodIssue :=
  {| path := p; message := m; fatal := false |}.

(** A check of [z.string()]: a test and the message of its issue. *)
Record StringCheck : Type := { passes : string -> bool; msg : string }.

Definition z_min (n : nat) (m : string) : StringCheck :=
  {| passes s := Nat.leb n (String.length s); msg := m |}.

Definition z_max (n : nat) (m : string) : StringCheck :=
  {| passes s := Nat.leb (String.length s) n; msg := m |}.

(** [.url(m)]: the test of well-formedness is the URL parser of the
    platform, an argument of the embedding. *)
Definition z_url (is_url : string -> bool) (m : string) : StringCheck :=
  {| passes := is_url; msg := m |}.

(** Every check runs; each failed check adds its issue, in order. *)
Definition z_string (checks : list StringCheck) (p : string) (s : string)
  : list ZodIssue :=
  flat_map (fun c => if passes c s then [] else [issue p (msg c)])
           checks.

(** [schema.optional()] *)
Definition z_optional {A} (schema : string -> A -> list ZodIssue) (p : string)
  (x : option A) : list ZodIssue :=
  match x with
  | Some a => schema p a
  | None => []
  end.

(** [z.enum([...])]: a value outside the enumeration aborts (the message
    is shortened: zod goes on to list the expected and the received value). *)
Definition z_enum (values : list string) (p : string) (s : string)
  : list ZodIssue :=
  if existsb (String.eqb s) values then []
  else [{| path := p; message := "Invalid enum value"; fatal := true |}].

(** [schema.refine(test, {message, path})]: the test runs on the parsed
    value also when fields have issues, unless one of them aborted. *)
Definition z_refine {D} (schema : D -> list ZodIssue) (test : D -> bool)
  (m p : string) (d : D) : list ZodIssue :=
  let inner := schema d in
  if existsb fatal inner then inner
  else inner ++ (if test d then [] else [issue p m]).

(** What a submit does: the issues of a failed validation, or the effects of
    the handler. *)
Inductive Submitted : Type :=
| Invalid (issues : list ZodIssue)
| Ran (effects : list Effect).

(** [form.handleSubmit(onSubmit)] with [zodResolver(schema)]. *)
Definition handleSubmit {D} (schema : D -> list ZodIssue)
  (onSubmit : D -> list Effect) (data : D) : Submitted :=
  match schema data with
  | [] => Ran (onSubmit data)
  | issues => Invalid issues
  end.

Definition requests (r : Submitted) : list ApiCall :=
  match r with
  | Invalid _ => []
  | Ran es => calls es
  end.

(** ** RejectCampaignDialog *)

Module RejectCampaignDialog.

Record RejectFormData : Type := { reason : string }.

Definition rejectSchema (d : RejectFormData) : list ZodIssue :=
  z_string [z_min 10 "Reason must be at least 10 characters";
            z_max 500 "Reason must be less than 500 characters"]
           "reason" (reason d).

Definition onSubmit (campaignId : string) (server : ApiCall -> Response)
  (data : RejectFormData) : list Effect :=
  let c := rejectCampaign campaignId (reason data) in
  Call c ::
  match server c with
  | Resolved _ =>
      [ToastSuccess "Campaign rejected. Funds will be returned to the seller.";
       Done]
  | Rejected detail =>
      [ToastError (JS.or_else detail "Failed to reject campaign. Please try again.")]
  end.

Definition submit (campaignId : string) (server : ApiCall -> Response)
  (data : RejectFormData) : Submitted :=
  handleSubmit rejectSchema (onSubmit campaignId server) data.

End RejectCampaignDialog.

(** ** The campaign record *)

Module Types.

(** Modelled from the spec: the type [UserType] of [lib/types], which is not
    among the sources; the roles of the specification. *)
Inductive UserType : Type := seller | channel_owner | admin.

(** Modelled from the spec: the type [Campaign] of [lib/types], which is not
    among the sources; the fields the components read, with the types of
    section 3 of the specification. [status] is kept a string: the status
    table of the card is indexed by strings. *)
Record Campaign : Type := {
  id : string;
  status : string;
  budget : JS.num;
  platform_commission_percent : JS.num;
  start_date : string;
  end_date : string;
  created_at : string;
  updated_at : string;
  owner_submitted_at : option string;
  seller_confirmed_at : option string;
  actual_completion_date : option string;
  placement_proof_url : option string;
  placement_proof_type : option string;
}.

End Types.

(** ** ConfirmCampaignDialog *)

Module ConfirmCampaignDialog.

Record ConfirmFormData : Type := { confirmed : bool; reason : option string }.

Definition confirmSchema : ConfirmFormData -> list ZodIssue :=
  z_refine
    (fun d =>
       z_optional (z_string [z_min 10 "Reason must be at least 10 characters"])
                  "reason" (reason d))
    (fun data =>
       if negb (confirmed data)
       then JS.truthy (reason data)
            && Nat.leb 10 (String.length (default "" (reason data)))
       else true)
    "Please provide a reason for disputing" "reason".

Definition onSubmit (campaign : Types.Campaign) (server : ApiCall -> Response)
  (data : ConfirmFormData) : list Effect :=
  let c := confirmCampaign (Types.id campaign) (confirmed data) None in
  Call c ::
  match server c with
  | Resolved _ =>
      [ToastSuccess (if confirmed data
                     then "Campaign confirmed! Payment will be processed."
                     else "Dispute opened. Admin will review your case.");
       Done]
  | Rejected detail =>
      [ToastError (JS.or_else detail "Failed to process. Please try again.")]
  end.

Definition submit (campaign : Types.Campaign) (server : ApiCall -> Response)
  (data : ConfirmFormData) : Submitted :=
  handleSubmit confirmSchema (onSubmit campaign server) data.

(** The two amounts the dialog shows, from [campaign.budget] and
    [campaign.platform_commission_percent], in the binary64 arithmetic of
    JavaScript. *)
Definition commission (budget platform_commission_percent : PrimFloat.float)
  : PrimFloat.float :=
  PrimFloat.mul budget (PrimFloat.div platform_commission_percent 100%float).

Definition paymentAmount (budget platform_commission_percent : PrimFloat.float)
  : PrimFloat.float :=
  PrimFloat.sub budget (commission budget platform_commission_percent).

End ConfirmCampaignDialog.

(** ** SubmitPlacementDialog *)

Module SubmitPlacementDialog.

Record SubmitFormData : Type := {
  placement_proof_url : string;
  placement_proof_type : string;
  owner_notes : option string;
}.

Section WithUrlParser.

Variable is_url : string -> bool.

Definition submitSchema (d : SubmitFormData) : list ZodIssue :=
  z_string [z_url is_url "Invalid URL"; z_min 1 "Proof URL is required"]
           "placement_proof_url" (placement_proof_url d)
  ++ z_enum ["screenshot"; "post_link"; "other"]
            "placement_proof_type" (placement_proof_type d)
  ++ z_optional (z_string [z_max 500 "Notes must be less than 500 characters"])
                "owner_notes" (owner_notes d).

Definition onSubmit (campaignId : string) (server : ApiCall -> Response)
  (data : SubmitFormData) : list Effect :=
  let c := submitCampaign campaignId (placement_proof_url data)
                          (placement_proof_type data) in
  Call c ::
  match server c with
  | Resolved _ => [ToastSuccess "Placement submitted successfully!"; Done]
  | Rejected detail =>
      [ToastError
         (JS.or_else detail "Failed to submit placement. Please try again.")]
  end.

Definition submit (campaignId : string) (server : ApiCall -> Response)
  (data : SubmitFormData) : Submitted :=
  handleSubmit submitSchema (onSubmit campaignId server) data.

End WithUrlParser.

End SubmitPlacementDialog.

(** ** CampaignActions *)

Module CampaignActions.

Import Types.

(** The buttons the component renders. *)
Inductive Action : Type :=
| Accept
| Reject
| SubmitPlacement
| CancelCampaign
| ReviewConfirm.

Definition CampaignActions (campaign : Campaign) (userType : UserType)
  : list Action :=
  let for_seller :=
    match userType with
    | seller =>
        if String.eqb (status campaign) "pending" then [CancelCampaign]
        else if String.eqb (status campaign) "in_progress"
                && JS.truthy (owner_submitted_at campaign)
        then [ReviewConfirm]
        else []
    | _ => []
    end in
  match userType with
  | channel_owner =>
      if String.eqb (status campaign) "pending" then [Accept; Reject]
      else if String.eqb (status campaign) "accepted" then [SubmitPlacement]
      else for_seller
  | _ => for_seller
  end.

(** The statuses a button can move the campaign to: the dialog behind
    Review & Confirm either confirms or opens a dispute. *)
Definition leads_to (a : Action) : list string :=
  match a with
  | Accept => ["accepted"]
  | Reject => ["rejected"]
  | SubmitPlacement => ["in_progress"]
  | CancelCampaign => ["cancelled"]
  | ReviewConfirm => ["completed"; "disputed"]
  end.

(** Modelled from the spec: the transition table of section 4.1, one row
    (from, to, actor) per transition; the table itself is not among the
    sources. *)
Definition transition_table : list (string * string * UserType) :=
  [("pending", "accepted", channel_owner);
   ("pending", "rejected", channel_owner);
   ("pending", "cancelled", seller);
   ("accepted", "in_progress", channel_owner);
   ("in_progress", "completed", seller);
   ("in_progress", "disputed", seller);
   ("disputed", "completed", admin);
   ("disputed", "cancelled", admin)].

End CampaignActions.

(** ** CampaignTimeline *)

Module CampaignTimeline.

Inductive Icon : Type :=
| FileText | CheckCircle2 | Send | CheckSquare | Trophy | XCircle.

Record TimelineStep : Type := {
  id : string;
  label : string;
  icon : Icon;
  date : option string;
  completed : bool;
  current : bool;
}.

(** [a || b] on optional strings. *)
Definition or_opt (a b : option string) : option string :=
  if JS.truthy a then a else b.

Definition includes (l : list string) (s : string) : bool :=
  existsb (String.eqb s) l.

Definition initial_steps (campaign : Types.Campaign) : list TimelineStep :=
  let status := Types.status campaign in
  [ {| id := "created"; label := "Created"; icon := FileText;
       date := Some (Types.created_at campaign);
       completed := true;
       current := String.eqb status "pending" |};
    {| id := "accepted"; label := "Accepted"; icon := CheckCircle2;
       date := if String.eqb status "accepted"
                  || String.eqb status "in_progress"
                  || String.eqb status "completed"
               then Some (Types.updated_at campaign) else None;
       completed := includes ["accepted"; "in_progress"; "completed"] status;
       current := String.eqb status "accepted" |};
    {| id := "submitted"; label := "Placement Submitted"; icon := Send;
       date := Types.owner_submitted_at campaign;
       completed := JS.truthy (Types.owner_submitted_at campaign);
       current := String.eqb status "in_progress"
                  && JS.truthy (Types.owner_submitted_at campaign) |};
    {| id := "confirmed"; label := "Confirmed by Seller"; icon := CheckSquare;
       date := Types.seller_confirmed_at campaign;
       completed := JS.truthy (Types.seller_confirmed_at campaign);
       current := String.eqb status "completed"
                  && JS.truthy (Types.seller_confirmed_at campaign) |};
    {| id := "completed"; label := "Completed"; icon := Trophy;
       date := or_opt (Types.actual_completion_date campaign)
                      (Types.seller_confirmed_at campaign);
       completed := String.eqb status "completed";
       current := String.eqb status "completed" |} ].

(** The steps the component maps over: [steps[1]] is overwritten for a
    rejected or cancelled campaign. *)
Definition steps (campaign : Types.Campaign) : list TimelineStep :=
  let status := Types.status campaign in
  let steps := initial_steps campaign in
  if String.eqb status "rejected" || String.eqb status "cancelled" then
    match steps !! 1%nat with
    | Some s1 =>
        <[1%nat := {| id := id s1;
                      label := if String.eqb status "rejected"
                               then "Rejected" else "Cancelled";
                      icon := XCircle;
                      date := date s1;
                      completed := true;
                      current := false |}]> steps
    | None => steps
    end
  else steps.

End CampaignTimeline.

(** ** Dates *)

Module Date.

Section WithParser.

(** [Date.parse]: the time value of a date string, if it is one. *)
Variable parse : string -> option Z.

(** [new Date(s).getTime()], which is also the number an ordering
    comparison of two [Date] objects compares. *)
Definition getTime (s : string) : JS.num :=
  match parse s with
  | Some t => JS.of_Z t
  | None => JS.NaN
  end.

End WithParser.

End Date.

(** ** Status badges: CampaignCard and CampaignDetails *)

Module StatusBadge.

Inductive Variant : Type := default_ | secondary | destructive | outline.

Record StatusInfo : Type := { label : string; variant : Variant }.

(** The names every object literal inherits from [Object.prototype]. *)
Definition Object_prototype : gset string :=
  list_to_set
    ["constructor"; "__defineGetter__"; "__defineSetter__"; "hasOwnProperty";
     "__lookupGetter__"; "__lookupSetter__"; "isPrototypeOf";
     "propertyIsEnumerable"; "toString"; "valueOf"; "__proto__";
     "toLocaleString"].

(** The value of [obj[key]] for an object literal [obj] with the given own
    properties: an own entry, a member inherited from the prototype (a
    function, or the prototype itself for [__proto__]), or [undefined]. *)
Inductive Value : Type :=
| Entry (info : StatusInfo)
| Inherited (name : string)
| Undefined.

Definition get (own : gmap string StatusInfo) (key : string) : Value :=
  match own !! key with
  | Some info => Entry info
  | None => if decide (key ∈ Object_prototype) then Inherited key else Undefined
  end.

(** [a || b]: objects and functions are truthy, [undefined] is not. *)
Definition or_value (a b : Value) : Value :=
  match a with
  | Undefined => b
  | _ => a
  end.

(** [v.label] and [v.variant]; a function has neither property. *)
Definition label_of (v : Value) : option string :=
  match v with
  | Entry info => Some (label info)
  | _ => None
  end.

Definition variant_of (v : Value) : option Variant :=
  match v with
  | Entry info => Some (variant info)
  | _ => None
  end.

(** [<Badge variant={v}>{text}</Badge>] *)
Record Badge : Type := { badge_variant : option Variant; badge_text : option string }.

Definition render (statusInfo : Value) : Badge :=
  {| badge_variant := variant_of statusInfo; badge_text := label_of statusInfo |}.

(** The seven statuses of a campaign, and the badge of a pending one. *)
Definition known_statuses : list string :=
  ["pending"; "accepted"; "rejected"; "in_progress"; "completed"; "disputed";
   "cancelled"].

Definition pending_badge : Badge :=
  {| badge_variant := Some outline; badge_text := Some "Pending" |}.

End StatusBadge.

Module CampaignCard.

Import StatusBadge.

Definition statusConfig : gmap string StatusInfo :=
  list_to_map
    [("pending", {| label := "Pending"; variant := outline |});
     ("accepted", {| label := "Accepted"; variant := default_ |});
     ("rejected", {| label := "Rejected"; variant := destructive |});
     ("in_progress", {| label := "In Progress"; variant := default_ |});
     ("completed", {| label := "Completed"; variant := default_ |});
     ("disputed", {| label := "Disputed"; variant := destructive |});
     ("cancelled", {| label := "Cancelled"; variant := outline |})].

Definition statusInfo (campaign : Types.Campaign) : Value :=
  or_value (get statusConfig (Types.status campaign)) (get statusConfig "pending").

Definition statusBadge (campaign : Types.Campaign) : Badge :=
  render (statusInfo campaign).

(** The progress over time; [parse] is the date parser of the platform and
    [now] the time value of the clock. *)
Definition progress (parse : string -> option Z) (campaign : Types.Campaign)
  (now : Z) : JS.num :=
  let startDate := Date.getTime parse (Types.start_date campaign) in
  let endDate := Date.getTime parse (Types.end_date campaign) in
  let totalDuration := JS.sub endDate startDate in
  let elapsed := JS.sub (JS.of_Z now) startDate in
  JS.Math_max (JS.Fin 0)
    (JS.Math_min (JS.Fin 100)
       (JS.mul (JS.div elapsed totalDuration) (JS.Fin 100))).

End CampaignCard.

Module CampaignDetails.

Import StatusBadge.

Definition statusConfig : gmap string StatusInfo :=
  list_to_map
    [("pending", {| label := "Pending"; variant := outline |});
     ("accepted", {| label := "Accepted"; variant := default_ |});
     ("rejected", {| label := "Rejected"; variant := destructive |});
     ("in_progress", {| label := "In Progress"; variant := default_ |});
     ("completed", {| label := "Completed"; variant := default_ |});
     ("disputed", {| label := "Disputed"; variant := destructive |});
     ("cancelled", {| label := "Cancelled"; variant := outline |})].

Definition statusInfo (campaign : Types.Campaign) : Value :=
  or_value (get statusConfig (Types.status campaign)) (get statusConfig "pending").

Definition statusBadge (campaign : Types.Campaign) : Badge :=
  render (statusInfo campaign).

End CampaignDetails.

(** ** CreateCampaignForm *)

Module CreateCampaignForm.

Record CreateCampaignFormData : Type := {
  channel_id : string;
  budget : Q;
  start_date : string;
  end_date : string;
  ad_format : AdFormat;
  creative_text : string;
  creative_images : option (list string);
  creative_video_url : option string;
}.

Section WithPlatform.

Variable is_url : string -> bool.
Variable parse : string -> option Z.

(** [z.number().min(1, m)] *)
Definition z_number_min (bound : Q) (m : string) (p : string) (x : Q)
  : list ZodIssue :=
  if Qle_bool bound x then [] else [issue p m].

(** [z.array(z.string().url())]: the issues of element [i] have path [p.i]. *)
Fixpoint z_array_url (p : string) (i : nat) (l : list string) : list ZodIssue :=
  match l with
  | [] => []
  | s :: l' =>
      z_string [z_url is_url "Invalid url"] (p ++ "." ++ pretty i) s
      ++ z_array_url p (S i) l'
  end.

(** [z.string().url().optional().or(z.literal(''))]: the empty string is
    accepted by the second alternative; otherwise the issues of the first
    alternative are reported. *)
Definition z_url_or_empty (p : string) (x : option string) : list ZodIssue :=
  match x with
  | Some s =>
      if String.eqb s "" then []
      else z_string [z_url is_url "Invalid url"] p s
  | None => []
  end.

Definition fields (d : CreateCampaignFormData) : list ZodIssue :=
  z_string [z_min 1 "Please select a channel"] "channel_id" (channel_id d)
  ++ z_number_min 1 "Budget must be at least 1 RUB" "budget" (budget d)
  ++ z_string [z_min 1 "Start date is required"] "start_date" (start_date d)
  ++ z_string [z_min 1 "End date is required"] "end_date" (end_date d)
  ++ z_string [z_min 10 "Creative text must be at least 10 characters";
               z_max 2000 "String must contain at most 2000 character(s)"]
              "creative_text" (creative_text d)
  ++ z_optional (fun p => z_array_url p 0) "creative_images" (creative_images d)
  ++ z_url_or_empty "creative_video_url" (creative_video_url d).

Definition createCampaignSchema : CreateCampaignFormData -> list ZodIssue :=
  z_refine fields
    (fun data =>
       let start := Date.getTime parse (start_date data) in
       let end_ := Date.getTime parse (end_date data) in
       JS.gt end_ start)
    "End date must be after start date" "end_date".

(** [balance !== null && balance >= selectedBudget] *)
Definition hasEnoughBalance (balance : option Q) (selectedBudget : Q) : bool :=
  match balance with
  | Some b => Qle_bool selectedBudget b
  | None => false
  end.

Definition onSubmit (balance : option Q) (server : ApiCall -> Response)
  (data : CreateCampaignFormData) : list Effect :=
  if negb (hasEnoughBalance balance (budget data)) then
    [ToastError "Insufficient balance. Please top up your account."]
  else
    let c := createCampaign
      {| cc_channel_id := channel_id data;
         cc_budget := budget data;
         cc_start_date := start_date data;
         cc_end_date := end_date data;
         cc_ad_format := ad_format data;
         cc_creative_text := creative_text data;
         cc_creative_images :=
           match creative_images data with
           | Some (u :: l) => Some (u :: l)
           | _ => None
           end;
         cc_creative_video_url :=
           if JS.truthy (creative_video_url data)
           then creative_video_url data else None |} in
    Call c ::
    match server c with
    | Resolved id =>
        [ToastSuccess "Campaign created successfully!";
         RouterPush ("/seller/campaigns/" ++ id)]
    | Rejected detail =>
        [ToastError
           (JS.or_else detail "Failed to create campaign. Please try again.")]
    end.

Definition submit (balance : option Q) (server : ApiCall -> Response)
  (data : CreateCampaignFormData) : Submitted :=
  handleSubmit createCampaignSchema (onSubmit balance server) data.

End WithPlatform.

End CreateCampaignForm.

(** ** Dispute details page (admin) *)

Module DisputeDetailsPage.

(** Modelled from the spec: the type [Dispute] of [lib/types], which is not
    among the sources; the fields the page reads. A dispute has an
    identifier of its own and refers to its campaign by [campaign_id]. *)
Record Dispute : Type := {
  id : string;
  campaign_id : string;
  status : string;
  reason : string;
  description : option string;
  created_at : string;
}.

(** [String.prototype.trim], on code units below 256. *)
Definition is_white_space (c : ascii) : bool :=
  existsb (Nat.eqb (nat_of_ascii c)) [9; 10; 11; 12; 13; 32; 160]%nat.

Fixpoint trimStart (s : string) : string :=
  match s with
  | EmptyString => EmptyString
  | String c s' => if is_white_space c then trimStart s' else s
  end.

Fixpoint trimEnd (s : string) : string :=
  match s with
  | EmptyString => EmptyString
  | String c s' =>
      match trimEnd s' with
      | EmptyString => if is_white_space c then EmptyString else String c EmptyString
      | t => String c t
      end
  end.

Definition trim (s : string) : string := trimEnd (trimStart s).

(** The state of the component: the dispute found by the query, and the
    [useState] cells. *)
Record State : Type := {
  dispute : option Dispute;
  decision : Decision;
  notes : string;
  refundAmount : string;
  isProcessing : bool;
}.

Section WithParseFloat.

Variable parseFloat : string -> JS.num.

Definition handleResolve (server : ApiCall -> Response) (st : State)
  : list Effect :=
  match dispute st with
  | None => []
  | Some d =>
      let c := resolveDispute (id d)
        {| rs_decision := decision st;
           rs_refund_amount :=
             match decision st with
             | partial_refund => Some (parseFloat (refundAmount st))
             | _ => None
             end;
           rs_notes := notes st |} in
      Call c ::
      match server c with
      | Resolved _ =>
          [ToastSuccess "Dispute resolved successfully";
           RouterPush "/admin/disputes"]
      | Rejected detail =>
          [ToastError (JS.or_else detail "Failed to resolve dispute.")]
      end
  end.

(** [disabled={isProcessing || !notes.trim()}] of the Resolve button. *)
Definition resolve_disabled (st : State) : bool :=
  isProcessing st || String.eqb (trim (notes st)) "".

(** A click on the Resolve button; a disabled button does nothing. *)
Definition clickResolve (server : ApiCall -> Response) (st : State)
  : list Effect :=
  if resolve_disabled st then [] else handleResolve server st.

End WithParseFloat.

End DisputeDetailsPage.

(** ** The lifecycle manager behind the API *)

Module Lifecycle.

Import Types.

(** Modelled from the spec: the error taxonomy of section 7. *)
Inductive Error : Type :=
| InvalidTransition
| Unauthorized
| ValidationError
| Conflict
| NotFound.

(** Modelled from the spec: the operation [submitPlacement] of the campaign
    lifecycle manager, which runs behind the HTTP API and is not among the
    sources. Sections 4.1, 7 and 8: the transition [accepted -> in_progress]
    belongs to the channel owner, needs a proof URL and a proof type among
    screenshot, post_link and other, and sets [owner_submitted_at]; an empty
    proof URL is a [ValidationError], a role other than the channel owner
    [Unauthorized], a status other than accepted [InvalidTransition]; a
    failed request changes nothing. *)
Definition submitPlacement (role : UserType) (c : Campaign)
  (proofUrl proofType now : string) : Error + Campaign :=
  if String.eqb proofUrl ""
     || negb (existsb (String.eqb proofType) ["screenshot"; "post_link"; "other"])
  then inl ValidationError
  else
    match role with
    | channel_owner =>
        if String.eqb (status c) "accepted" then
          inr {| id := id c;
                 status := "in_progress";
                 budget := budget c;
                 platform_commission_percent := platform_commission_percent c;
                 start_date := start_date c;
                 end_date := end_date c;
                 created_at := created_at c;
                 updated_at := now;
                 owner_submitted_at := Some now;
                 seller_confirmed_at := seller_confirmed_at c;
                 actual_completion_date := actual_completion_date c;
                 placement_proof_url := Some proofUrl;
                 placement_proof_type := Some proofType |}
        else inl InvalidTransition
    | _ => inl Unauthorized
    end.

(** The campaign after a request: unchanged when the request fails. *)
Definition after (c : Campaign) (r : Error + Campaign) : Campaign :=
  match r with
  | inl _ => c
  | inr c' => c'
  end.

End Lifecycle.

(** ** Sample data *)

Module Samples.

(** The statuses in which the proof of placement has been submitted. *)
Definition placed (status : string) : bool :=
  existsb (String.eqb status) ["in_progress"; "completed"; "disputed"].

(** The campaign of the end-to-end scenarios: a budget of 10000 and a
    commission of 10 percent, in the given status. *)
Definition campaign (status : string) : Types.Campaign :=
  {| Types.id := "c-1";
     Types.status := status;
     Types.budget := JS.Fin 10000;
     Types.platform_commission_percent := JS.Fin 10;
     Types.start_date := "2025-01-01";
     Types.end_date := "2025-01-08";
     Types.created_at := "2024-12-30T10:00:00Z";
     Types.updated_at := "2025-01-02T09:00:00Z";
     Types.owner_submitted_at :=
       if placed status then Some "2025-01-02T09:00:00Z" else None;
     Types.seller_confirmed_at := None;
     Types.actual_completion_date := None;
     Types.placement_proof_url :=
       if placed status then Some "https://x" else None;
     Types.placement_proof_type :=
       if placed status then Some "screenshot" else None |}.

(** A date parser for the samples: days since 2025-01-01 in milliseconds,
    for the dates of January 2025 written [2025-01-dd]. *)
Definition parse (s : string) : option Z :=
  if String.eqb (String.substring 0 8 s) "2025-01-"
     && Nat.eqb (String.length s) 10
  then
    match String.get 8 s, String.get 9 s with
    | Some a, Some b =>
        let d := ((Z.of_nat (nat_of_ascii a) - 48) * 10
                  + (Z.of_nat (nat_of_ascii b) - 48))%Z in
        if (1 <=? d)%Z && (d <=? 31)%Z
        then Some ((d - 1) * 86400000)%Z else None
    | _, _ => None
    end
  else None.

(** A dispute on the sample campaign, and the page state of an admin who
    has chosen a full refund and written a note. *)
Definition dispute : DisputeDetailsPage.Dispute :=
  {| DisputeDetailsPage.id := "d-7";
     DisputeDetailsPage.campaign_id := "c-1";
     DisputeDetailsPage.status := "open";
     DisputeDetailsPage.reason := "The ad was never published";
     DisputeDetailsPage.description := None;
     DisputeDetailsPage.created_at := "2025-01-03T12:00:00Z" |}.

Definition page : DisputeDetailsPage.State :=
  {| DisputeDetailsPage.dispute := Some dispute;
     DisputeDetailsPage.decision := refund;
     DisputeDetailsPage.notes := "No proof of placement";
     DisputeDetailsPage.refundAmount := "";
     DisputeDetailsPage.isProcessing := false |}.

(** The form of a seller who books one week on channel ["ch-1"]. *)
Definition form (start_date end_date : string)
  : CreateCampaignForm.CreateCampaignFormData :=
  {| CreateCampaignForm.channel_id := "ch-1";
     CreateCampaignForm.budget := 10000;
     CreateCampaignForm.start_date := start_date;
     CreateCampaignForm.end_date := end_date;
     CreateCampaignForm.ad_format := post;
     CreateCampaignForm.creative_text := "Spring sale: everything 20% off";
     CreateCampaignForm.creative_images := Some [];
     CreateCampaignForm.creative_video_url := Some "" |}.

(** The proof of placement of the end-to-end scenario. *)
Definition proof : SubmitPlacementDialog.SubmitFormData :=
  {| SubmitPlacementDialog.placement_proof_url := "https://x";
     SubmitPlacementDialog.placement_proof_type := "screenshot";
     SubmitPlacementDialog.owner_notes := Some "" |}.

(** A URL test for the samples: the string starts with [https://]. *)
Definition is_url (s : string) : bool :=
  String.eqb (String.substring 0 8 s) "https://".

End Samples.

(** * Further components *)

(** ** AcceptCampaignDialog *)

Module AcceptCampaignDialog.

Record AcceptFormData : Type := { owner_notes : option string }.

Definition acceptSchema (d : AcceptFormData) : list ZodIssue :=
  z_optional (z_string [z_max 500 "Notes must be less than 500 characters"])
             "owner_notes" (owner_notes d).

Definition onSubmit (campaignId : string) (server : ApiCall -> Response)
  (data : AcceptFormData) : list Effect :=
  let c := acceptCampaign campaignId (owner_notes data) in
  Call c ::
  match server c with
  | Resolved _ => [ToastSuccess "Campaign accepted successfully!"; Done]
  | Rejected detail =>
      [ToastError
         (JS.or_else detail "Failed to accept campaign. Please try again.")]
  end.

Definition submit (campaignId : string) (server : ApiCall -> Response)
  (data : AcceptFormData) : Submitted :=
  handleSubmit acceptSchema (onSubmit campaignId server) data.

End AcceptCampaignDialog.

(** ** The buttons of CampaignActions and what they do *)

Module ActionFlow.

Import Types CampaignActions.

#[global] Instance Action_eq_dec : EqDecision Action.
Proof. solve_decision. Defined.

(** What a user does with the action bar: fill and submit the dialog behind
    a button, or click Cancel Campaign and answer the browser's [confirm]
    prompt. *)
Inductive Interaction : Type :=
| SubmitAccept (data : AcceptCampaignDialog.AcceptFormData)
| SubmitReject (data : RejectCampaignDialog.RejectFormData)
| SubmitProof (data : SubmitPlacementDialog.SubmitFormData)
| ClickCancel (answer : bool)
| SubmitReview (data : ConfirmCampaignDialog.ConfirmFormData).

(** The button an interaction starts from. *)
Definition button (i : Interaction) : Action :=
  match i with
  | SubmitAccept _ => Accept
  | SubmitReject _ => Reject
  | SubmitProof _ => SubmitPlacement
  | ClickCancel _ => CancelCampaign
  | SubmitReview _ => ReviewConfirm
  end.

(** The [onClick] of the Cancel Campaign button; [Done] stands for
    [onActionComplete?.()] here. *)
Definition clickCancel (campaign : Campaign) (server : ApiCall -> Response)
  (answer : bool) : list Effect :=
  if answer then
    let c := cancelCampaign (id campaign) in
    Call c ::
    match server c with
    | Resolved _ =>
        [ToastSuccess "Campaign cancelled. Funds will be returned."; Done]
    | Rejected detail =>
        [ToastError (JS.or_else detail "Failed to cancel campaign.")]
    end
  else [].

Section WithUrlParser.

Variable is_url : string -> bool.

(** The requests of an interaction: none when the component does not render
    the button; the dialogs receive [campaign.id], the confirmation dialog
    the campaign itself. *)
Definition perform (campaign : Campaign) (userType : UserType)
  (server : ApiCall -> Response) (i : Interaction) : list ApiCall :=
  if bool_decide (button i ∈ CampaignActions campaign userType) then
    match i with
    | SubmitAccept data =>
        requests (AcceptCampaignDialog.submit (id campaign) server data)
    | SubmitReject data =>
        requests (RejectCampaignDialog.submit (id campaign) server data)
    | SubmitProof data =>
        requests (SubmitPlacementDialog.submit is_url (id campaign) server data)
    | ClickCancel answer => calls (clickCancel campaign server answer)
    | SubmitReview data =>
        requests (ConfirmCampaignDialog.submit campaign server data)
    end
  else [].

End WithUrlParser.

End ActionFlow.

(** ** How a timeline step is drawn *)

Module TimelineView.

Import CampaignTimeline.

(** The colour of the round marker and the icon inside it. *)
Inductive Marker : Type := Green | Blue | Grey.

Inductive MarkerIcon : Type := CheckMark | Clock | Circle.

Definition marker (step : TimelineStep) : Marker :=
  if completed step then Green
  else if current step then Blue
  else Grey.

Definition marker_icon (step : TimelineStep) : MarkerIcon :=
  if completed step then CheckMark
  else if current step then Clock
  else Circle.

(** [step.current && !step.completed]: the line "In progress...". *)
Definition in_progress_hint (step : TimelineStep) : bool :=
  current step && negb (completed step).

End TimelineView.

(** ** More of CreateCampaignForm *)

Module CreateCampaignInputs.

(** [value.split(',')] *)
Fixpoint split_comma (s : string) : list string :=
  match s with
  | EmptyString => [EmptyString]
  | String c s' =>
      if Ascii.eqb c ","%char then EmptyString :: split_comma s'
      else
        match split_comma s' with
        | h :: t => String c h :: t
        | [] => [String c EmptyString]
        end
  end.

(** [handleImagesChange]: the value given to [creative_images]. The test of
    the filter is that [new URL(url)] does not throw, which is also the test
    of the [url()] check of the schema. *)
Definition handleImagesChange (is_url : string -> bool) (value : string)
  : list string :=
  List.filter is_url (map DisputeDetailsPage.trim (split_comma value)).



End CreateCampaignInputs.

(** ** DisputeTable and the way to the dispute page *)

Module DisputeTable.

Import StatusBadge.

Definition statusConfig : gmap string StatusInfo :=
  list_to_map
    [("open", {| label := "Open"; variant := destructive |});
     ("in_review", {| label := "In Review"; variant := outline |});
     ("resolved", {| label := "Resolved"; variant := default_ |});
     ("closed", {| label := "Closed"; variant := secondary |})].


Definition statusInfo (dispute : DisputeDetailsPage.Dispute) : Value :=
  or_value (get statusConfig (DisputeDetailsPage.status dispute))
           (get statusConfig "open").

Definition statusBadge (dispute : DisputeDetailsPage.Dispute) : Badge :=
  render (statusInfo dispute).


End DisputeTable.

Module DisputeRoute.

Import DisputeDetailsPage.



End DisputeRoute.

(** ** The campaign lists and the seller dashboard *)

Module CampaignLists.

Import Types.

(** [String.prototype.toLowerCase], on code units below 256. *)
Definition lower_unit (c : ascii) : ascii :=
  let n := nat_of_ascii c in
  if (Nat.leb 65 n && Nat.leb n 90)
     || (Nat.leb 192 n && Nat.leb n 222 && negb (Nat.eqb n 215))
  then ascii_of_nat (n + 32) else c.

Fixpoint toLowerCase (s : string) : string :=
  match s with
  | EmptyString => EmptyString
  | String c s' => String (lower_unit c) (toLowerCase s')
  end.

(** [s.includes(q)] *)
Fixpoint includes (s q : string) : bool :=
  String.prefix q s
  || match s with
     | EmptyString => false
     | String _ s' => includes s' q
     end.

Section WithCreativeText.

(** The field [creative_text] of a campaign, which the campaign record of
    this development does not carry. *)
Variable creative_text : Campaign -> string.

(** [filteredCampaigns] of the seller's page; [campaigns] is undefined while
    the query has no data. *)
Definition filteredCampaigns (campaigns : option (list Campaign))
  (statusFilter searchQuery : string) : list Campaign :=
  match campaigns with
  | None => []
  | Some campaigns =>
      let filtered := campaigns in
      let filtered :=
        if negb (String.eqb statusFilter "all")
        then List.filter (fun c => String.eqb (status c) statusFilter) filtered
        else filtered in
      let filtered :=
        if negb (String.eqb searchQuery "")
        then
          let query := toLowerCase searchQuery in
          List.filter
            (fun c => includes (toLowerCase (id c)) query
                      || includes (toLowerCase (creative_text c)) query)
            filtered
        else filtered in
      filtered
  end.

(** The test [c => ...] of the search, for a query already in lower case. *)
Definition matches_query (query : string) (c : Campaign) : bool :=
  includes (toLowerCase (id c)) query
  || includes (toLowerCase (creative_text c)) query.

End WithCreativeText.



End CampaignLists.

(** * Properties *)

(** ** Generic facts about schemas and submission *)

Lemma requests_Invalid issues : requests (Invalid issues) = [].
Proof. reflexivity. Qed.

Lemma handleSubmit_Ran {D} (schema : D -> list ZodIssue) onSubmit data es :
  handleSubmit schema onSubmit data = Ran es ->
  schema data = [] /\ es = onSubmit data.
Proof.
  unfold handleSubmit. destruct (schema data); intros H; inversion H; auto.
Qed.

Lemma handleSubmit_Invalid {D} (schema : D -> list ZodIssue) onSubmit data i :
  In i (schema data) ->
  handleSubmit schema onSubmit data = Invalid (schema data).
Proof.
  unfold handleSubmit. destruct (schema data); [intros [] | reflexivity].
Qed.

Lemma z_string_nonfatal checks p s :
  Forall (fun i => fatal i = false) (z_string checks p s).
Proof.
  unfold z_string. induction checks as [|c checks IH]; simpl.
  - constructor.
  - destruct (passes c s); simpl; [exact IH | constructor; [reflexivity | exact IH]].
Qed.

Lemma existsb_fatal_false l :
  Forall (fun i => fatal i = false) l -> existsb fatal l = false.
Proof.
  induction 1 as [|i l Hi _ IH]; simpl; [reflexivity | now rewrite Hi, IH].
Qed.

(** ** Rejecting a campaign *)

Section Reject.

Import RejectCampaignDialog.

(** C3: [rejectCampaign] is requested only with a reason of at least 10 and at
    most 500 characters; a submission whose reason is shorter than 10
    characters fails validation with the reason-too-short issue and makes no
    request, so nothing reaches the campaign. *)
Theorem reject_requires_reason :
  forall (campaignId : string) (server : ApiCall -> Response)
         (data : RejectFormData),
    (forall c, In c (requests (submit campaignId server data)) ->
               c = rejectCampaign campaignId (reason data)
               /\ 10 <= String.length (reason data) <= 500) /\
    (String.length (reason data) < 10 ->
     exists issues,
       submit campaignId server data = Invalid issues
       /\ In (issue "reason" "Reason must be at least 10 characters") issues
       /\ requests (submit campaignId server data) = []).
Proof.
  intros campaignId server [r]. unfold submit, handleSubmit, rejectSchema.
  cbn [z_string flat_map passes msg z_min z_max RejectCampaignDialog.reason].
  destruct (Nat.leb_spec 10 (String.length r)) as [Hmin | Hmin];
    destruct (Nat.leb_spec (String.length r) 500) as [Hmax | Hmax];
    cbn [app]; split.
  - unfold onSubmit. cbn [requests calls RejectCampaignDialog.reason].
    intros c Hc.
    assert (c = rejectCampaign campaignId r) as ->.
    { destruct (server (rejectCampaign campaignId r)); cbn in Hc;
        destruct Hc as [<- | []]; reflexivity. }
    split; [reflexivity | lia].
  - intros Hshort. lia.
  - intros c [].
  - intros Hshort. lia.
  - intros c [].
  - intros _. eexists. split; [reflexivity|]. split; [left; reflexivity | reflexivity].
  - intros c [].
  - intros _. eexists. split; [reflexivity|]. split; [left; reflexivity | reflexivity].
Qed.

Lemma reject_requires_reason_witness :
  exists issues,
    submit "c-1" (fun _ => Resolved "c-1") {| reason := "too short" |}
    = Invalid issues
    /\ In (issue "reason" "Reason must be at least 10 characters") issues
    /\ requests (submit "c-1" (fun _ => Resolved "c-1") {| reason := "too short" |})
       = [].
Proof.
  apply (proj2 (reject_requires_reason "c-1" (fun _ => Resolved "c-1")
                  {| reason := "too short" |})).
  simpl. lia.
Defined.

(** A reason of legal length does reach the API. *)
Example reject_sends_reason :
  requests (submit "c-1" (fun _ => Resolved "c-1")
              {| reason := "Not a good fit for my audience" |})
  = [rejectCampaign "c-1" "Not a good fit for my audience"].
Proof. reflexivity. Qed.

End Reject.

(** ** Confirming a placement or opening a dispute *)

Section Confirm.

Import ConfirmCampaignDialog.

(** With the decision to dispute, the schema accepts exactly the reasons of
    at least 10 characters. *)
Lemma confirmSchema_dispute (r : option string) :
  confirmSchema {| confirmed := false; reason := r |} = []
  <-> exists s, r = Some s /\ 10 <= String.length s.
Proof.
  unfold confirmSchema, z_refine. cbn [confirmed reason negb].
  destruct r as [s|]; cbn [z_optional].
  - change (default "" (Some s)) with s.
    rewrite existsb_fatal_false by apply z_string_nonfatal.
    unfold z_string, z_min. cbn [flat_map passes msg].
    destruct (Nat.leb 10 (String.length s)) eqn:Hlen.
    + apply Nat.leb_le in Hlen.
      assert (JS.truthy (Some s) = true) as ->.
      { destruct s; [simpl in Hlen; lia | reflexivity]. }
      cbn [andb app].
      split; [intros _; exists s; split; [reflexivity | lia] | reflexivity].
    + apply Nat.leb_gt in Hlen.
      split; [discriminate |]. intros (s' & [= <-] & Hs'). lia.
  - cbn. split; [discriminate | intros (s & [=] & _)].
Qed.

(** C1 (as the code behaves): a dispute whose reason passes validation is
    sent as [confirmCampaign(campaign.id, false)]: the request carries no
    dispute reason, whatever the seller entered. *)
Theorem dispute_reason_not_forwarded :
  forall (campaign : Types.Campaign) (server : ApiCall -> Response)
         (r : string),
    10 <= String.length r ->
    requests (submit campaign server {| confirmed := false; reason := Some r |})
    = [confirmCampaign (Types.id campaign) false None].
Proof.
  intros campaign server r Hlen. unfold submit, handleSubmit.
  assert (confirmSchema {| confirmed := false; reason := Some r |} = []) as ->.
  { apply confirmSchema_dispute. exists r. split; [reflexivity | exact Hlen]. }
  unfold onSubmit. cbn [requests calls confirmed].
  destruct (server _); reflexivity.
Qed.

Lemma dispute_reason_not_forwarded_witness :
  requests (submit (Samples.campaign "in_progress") (fun _ => Resolved "c-1")
              {| confirmed := false;
                 reason := Some "The ad was never published" |})
  = [confirmCampaign "c-1" false None].
Proof.
  apply (dispute_reason_not_forwarded (Samples.campaign "in_progress")
           (fun _ => Resolved "c-1") "The ad was never published").
  simpl. lia.
Defined.

(** The schema applies the length check to the reason also when the seller
    confirms: the empty reason of the form's default values is an issue. *)
Example confirm_with_default_reason :
  confirmSchema {| confirmed := true; reason := Some "" |}
  = [issue "reason" "Reason must be at least 10 characters"].
Proof. reflexivity. Qed.

End Confirm.

(** ** Actions offered on a campaign *)

Section Actions.

Import Types CampaignActions.

Ltac status_cases c :=
  destruct (String.eqb_spec (status c) "pending") as [Hp | Hp];
  destruct (String.eqb_spec (status c) "accepted") as [Ha | Ha];
  destruct (String.eqb_spec (status c) "in_progress") as [Hi | Hi];
  try (rewrite Hp in Ha; discriminate Ha);
  try (rewrite Hp in Hi; discriminate Hi);
  try (rewrite Ha in Hi; discriminate Hi).

(** C2: the component offers Accept and Reject exactly to a channel owner on
    a pending campaign, Submit Placement exactly to a channel owner on an
    accepted campaign, Cancel exactly to a seller on a pending campaign,
    Review & Confirm exactly to a seller on a campaign in progress whose
    [owner_submitted_at] is set; hence nothing in every other case, an admin
    and the terminal and disputed statuses included. *)
Theorem CampaignActions_offers :
  forall (campaign : Campaign) (userType : UserType),
    let offered a := In a (CampaignActions campaign userType) in
    (offered Accept <-> userType = channel_owner /\ status campaign = "pending")
    /\ (offered Reject <->
        userType = channel_owner /\ status campaign = "pending")
    /\ (offered SubmitPlacement <->
        userType = channel_owner /\ status campaign = "accepted")
    /\ (offered CancelCampaign <->
        userType = seller /\ status campaign = "pending")
    /\ (offered ReviewConfirm <->
        userType = seller /\ status campaign = "in_progress"
        /\ JS.truthy (owner_submitted_at campaign) = true).
Proof.
  intros campaign userType offered. subst offered. unfold CampaignActions.
  destruct userType; status_cases campaign;
    destruct (JS.truthy (owner_submitted_at campaign));
    cbn [andb In]; intuition congruence.
Qed.

(** The same, read as a table: the list of buttons for each case. *)
Lemma CampaignActions_table (campaign : Campaign) (userType : UserType) :
  CampaignActions campaign userType =
  match userType with
  | channel_owner =>
      if decide (status campaign = "pending") then [Accept; Reject]
      else if decide (status campaign = "accepted") then [SubmitPlacement]
      else []
  | seller =>
      if decide (status campaign = "pending") then [CancelCampaign]
      else if decide (status campaign = "in_progress"
                      /\ JS.truthy (owner_submitted_at campaign) = true)
      then [ReviewConfirm]
      else []
  | admin => []
  end.
Proof.
  unfold CampaignActions.
  destruct userType; status_cases campaign;
    destruct (JS.truthy (owner_submitted_at campaign)) eqn:Ht;
    repeat case_decide; cbn [andb]; try reflexivity; intuition congruence.
Qed.

(** Every button leads only to transitions of the table of section 4.1 for
    the role and the status at hand. *)
Lemma offered_is_authorized (campaign : Campaign) (userType : UserType) a t :
  In a (CampaignActions campaign userType) -> In t (leads_to a) ->
  In (status campaign, t, userType) transition_table.
Proof.
  intros Ha Ht.
  pose proof (CampaignActions_table campaign userType) as Htable.
  destruct userType; rewrite Htable in Ha; repeat case_decide;
    cbn in Ha; try tauto;
    repeat (destruct Ha as [<- | Ha]; [| try tauto]);
    cbn in Ht; repeat (destruct Ht as [<- | Ht]; [| try tauto]);
    match goal with
    | H : status campaign = _ |- _ => rewrite H
    | H : status campaign = _ /\ _ |- _ => rewrite (proj1 H)
    end;
    cbn; tauto.
Qed.

(** Conversely, every transition of the table that belongs to a seller or a
    channel owner has its button, once the placement has been submitted for
    the transitions out of in_progress. *)
Lemma authorized_is_offered (campaign : Campaign) (userType : UserType) t :
  In (status campaign, t, userType) transition_table ->
  userType <> admin ->
  (status campaign = "in_progress" ->
   JS.truthy (owner_submitted_at campaign) = true) ->
  exists a, In a (CampaignActions campaign userType) /\ In t (leads_to a).
Proof.
  intros Hin Hadmin Hsub. rewrite CampaignActions_table.
  cbn in Hin.
  repeat (destruct Hin as [Hrow | Hin];
          [injection Hrow as Hs <- <-; symmetry in Hs |]);
    try tauto.
  all: repeat case_decide; try congruence.
  all: try (eexists; split; [left; reflexivity | cbn; tauto]).
  all: try (eexists; split; [right; left; reflexivity | cbn; tauto]).
  all: exfalso; intuition congruence.
Qed.

End Actions.

(** ** The timeline *)

Section Timeline.

Import CampaignTimeline.

Lemma steps_unfinished (campaign : Types.Campaign) :
  Types.status campaign <> "rejected" ->
  Types.status campaign <> "cancelled" ->
  steps campaign = initial_steps campaign.
Proof.
  intros Hr Hc. unfold steps.
  apply String.eqb_neq in Hr. apply String.eqb_neq in Hc.
  now rewrite Hr, Hc.
Qed.

(** C8: on a disputed campaign the step labelled Accepted is not marked as
    completed; in every timeline a step labelled Accepted is completed
    exactly when the status is accepted, in_progress or completed. *)
Theorem accepted_step_completed :
  forall campaign : Types.Campaign,
    (Types.status campaign = "disputed" ->
     exists s, steps campaign !! 1%nat = Some s
               /\ id s = "accepted" /\ label s = "Accepted"
               /\ completed s = false) /\
    (forall s, In s (steps campaign) -> label s = "Accepted" ->
       (completed s = true <->
        Types.status campaign = "accepted"
        \/ Types.status campaign = "in_progress"
        \/ Types.status campaign = "completed")).
Proof.
  intros campaign. split.
  - intros Hd. rewrite steps_unfinished by (rewrite Hd; discriminate).
    unfold initial_steps. rewrite Hd. eexists. split; [reflexivity|].
    cbn. auto.
  - intros s Hin Hlabel. unfold steps in Hin.
    destruct (String.eqb_spec (Types.status campaign) "rejected") as [Hr | Hr];
      [| destruct (String.eqb_spec (Types.status campaign) "cancelled")
           as [Hc | Hc]];
      cbn [orb initial_steps lookup list_lookup insert list_insert] in Hin.
    1, 2: exfalso; cbn in Hin;
          destruct Hin as [<- | [<- | [<- | [<- | [<- | []]]]]];
          cbn in Hlabel; try discriminate Hlabel;
          try (rewrite Hr in Hlabel; discriminate Hlabel).
    destruct Hin as [<- | [<- | [<- | [<- | [<- | []]]]]];
      cbn in Hlabel; try discriminate Hlabel.
    cbn [completed includes existsb orb].
    destruct (String.eqb_spec (Types.status campaign) "accepted");
      destruct (String.eqb_spec (Types.status campaign) "in_progress");
      destruct (String.eqb_spec (Types.status campaign) "completed");
      cbn [orb]; intuition congruence.
Qed.

Lemma accepted_step_completed_witness :
  exists s, steps (Samples.campaign "disputed") !! 1%nat = Some s
            /\ id s = "accepted" /\ label s = "Accepted"
            /\ completed s = false.
Proof.
  apply (proj1 (accepted_step_completed (Samples.campaign "disputed"))).
  reflexivity.
Defined.

(** A rejected campaign shows the second step as completed, under the label
    Rejected. *)
Example rejected_step :
  steps (Samples.campaign "rejected") !! 1%nat
  = Some {| id := "accepted"; label := "Rejected"; icon := XCircle;
            date := None; completed := true; current := false |}.
Proof. reflexivity. Qed.

End Timeline.

(** ** Numbers *)

Lemma Qsign_pos (q : Q) : (0 < q)%Q -> JS.Qsign q = Gt.
Proof. intros H. unfold JS.Qsign. now apply Qgt_alt. Qed.

Lemma Qcompare_inject_Z (x y : Z) :
  (inject_Z x ?= inject_Z y)%Q = (x ?= y)%Z.
Proof. unfold Qcompare. cbn. now rewrite !Z.mul_1_r. Qed.

Lemma lt_of_Z (x y : Z) : JS.lt (JS.of_Z x) (JS.of_Z y) = (x <? y)%Z.
Proof.
  unfold JS.lt, JS.of_Z. rewrite Qcompare_inject_Z. unfold Z.ltb.
  now destruct (x ?= y)%Z.
Qed.

(** The clamp [Math.max(0, Math.min(100, x))] of a finite number. *)
Lemma clamp_within (x : Q) :
  JS.within 0 100 (JS.Math_max (JS.Fin 0) (JS.Math_min (JS.Fin 100) (JS.Fin x))).
Proof.
  unfold JS.Math_min, JS.lt.
  destruct (x ?= 100)%Q eqn:Hx.
  - unfold JS.Math_max, JS.lt. now cbn.
  - apply Qlt_alt in Hx. unfold JS.Math_max, JS.lt.
    destruct (0 ?= x)%Q eqn:H0; cbn.
    + apply Qeq_alt in H0. lra.
    + apply Qlt_alt in H0. lra.
    + lra.
  - unfold JS.Math_max, JS.lt. now cbn.
Qed.

(** ** Progress on the card *)

Section Progress.

Import CampaignCard.

Variable parse : string -> option Z.

(** C9: for a campaign whose end date is strictly after its start date the
    progress is a number of the closed interval [0, 100] at every current
    time; when the two dates are equal the computation divides by zero, and
    at that very instant the result is NaN, outside the interval. *)
Theorem progress_clamped :
  forall (campaign : Types.Campaign) (s e : Z),
    parse (Types.start_date campaign) = Some s ->
    parse (Types.end_date campaign) = Some e ->
    ((s < e)%Z -> forall now : Z, JS.within 0 100 (progress parse campaign now))
    /\ (s = e ->
        JS.sub (Date.getTime parse (Types.end_date campaign))
               (Date.getTime parse (Types.start_date campaign)) = JS.Fin (0 # 1)
        /\ progress parse campaign s = JS.NaN
        /\ ~ JS.within 0 100 (progress parse campaign s)).
Proof.
  intros campaign s e Hs He. unfold progress, Date.getTime.
  rewrite Hs, He. unfold JS.of_Z. cbn [JS.sub]. split.
  - intros Hlt now. unfold JS.div.
    rewrite Qsign_pos.
    + cbn [JS.mul]. apply clamp_within.
    + assert (inject_Z s < inject_Z e)%Q by now rewrite <- Zlt_Qlt. lra.
  - intros <-. split; [|split].
    + unfold Qminus, Qplus. cbn. f_equal. f_equal. lia.
    + unfold JS.div, JS.Qsign.
      assert ((inject_Z s - inject_Z s ?= 0)%Q = Eq) as ->
          by (apply Qeq_alt; ring).
      reflexivity.
    + unfold JS.div, JS.Qsign.
      assert ((inject_Z s - inject_Z s ?= 0)%Q = Eq) as ->
          by (apply Qeq_alt; ring).
      cbn. tauto.
Qed.

End Progress.

Lemma progress_clamped_witness :
  (forall now : Z,
      JS.within 0 100
        (CampaignCard.progress Samples.parse (Samples.campaign "in_progress") now))
  /\ CampaignCard.progress (fun _ => Some 0%Z) (Samples.campaign "in_progress") 0
     = JS.NaN.
Proof.
  split.
  - apply (proj1 (progress_clamped Samples.parse (Samples.campaign "in_progress")
                    0 604800000 eq_refl eq_refl)).
    reflexivity.
  - apply (proj2 (progress_clamped (fun _ => Some 0%Z)
                    (Samples.campaign "in_progress") 0 0 eq_refl eq_refl)).
    reflexivity.
Defined.

(** After the end date the bar is full, before the start date it is empty. *)
Example progress_after_end :
  CampaignCard.progress Samples.parse (Samples.campaign "in_progress") 864000000
  = JS.Fin 100.
Proof. reflexivity. Qed.

Example progress_before_start :
  CampaignCard.progress Samples.parse (Samples.campaign "in_progress") (-5)
  = JS.Fin 0.
Proof. reflexivity. Qed.

(** ** The payment shown before confirmation *)

Section Payment.

Import ConfirmCampaignDialog.



(** Likewise 0.3 at 10 percent: 0.27000000000000002 and
    0.029999999999999999 add up to 0.30000000000000004. *)
Example payment_sum_three_tenths :
  PrimFloat.eqb
    (PrimFloat.add (paymentAmount 0x1.3333333333333p-2%float 10%float)
                   (commission 0x1.3333333333333p-2%float 10%float))
    0x1.3333333333333p-2%float
  = false.
Proof. vm_compute. reflexivity. Qed.

End Payment.

(** ** Status badges *)

Section Badges.

Import StatusBadge.

Lemma card_statusConfig_unknown (status : string) :
  ~ In status known_statuses -> CampaignCard.statusConfig !! status = None.
Proof.
  intros Hn. unfold CampaignCard.statusConfig. cbn [list_to_map foldr curry fst snd].
  repeat (rewrite lookup_insert_ne;
          [| intros <-; apply Hn; unfold known_statuses; cbn; tauto]).
  apply lookup_empty.
Qed.

Lemma details_statusConfig_unknown (status : string) :
  ~ In status known_statuses -> CampaignDetails.statusConfig !! status = None.
Proof. apply card_statusConfig_unknown. Qed.

(** An unknown status that is not a name inherited from the prototype gets
    the Pending badge, on the card and on the details page. *)
Lemma unknown_status_falls_back (campaign : Types.Campaign) :
  ~ In (Types.status campaign) known_statuses ->
  Types.status campaign ∉ Object_prototype ->
  CampaignCard.statusBadge campaign = pending_badge
  /\ CampaignDetails.statusBadge campaign = pending_badge.
Proof.
  intros Hk Hp.
  unfold CampaignCard.statusBadge, CampaignCard.statusInfo,
    CampaignDetails.statusBadge, CampaignDetails.statusInfo, get.
  rewrite (card_statusConfig_unknown _ Hk), (details_statusConfig_unknown _ Hk).
  rewrite decide_False by exact Hp. split; vm_compute; reflexivity.
Qed.

(** C10 (as the code behaves): a status that is the name of a member every
    object inherits, such as [constructor], is not one of the seven known
    statuses, yet [statusConfig[status]] is that inherited member: it is
    truthy, the fallback is not taken, and the badge is rendered with neither
    label nor variant instead of as Pending. *)
Theorem inherited_status_defeats_fallback :
  forall campaign : Types.Campaign,
    Types.status campaign = "constructor" ->
    ~ In (Types.status campaign) known_statuses
    /\ CampaignCard.statusInfo campaign = Inherited "constructor"
    /\ CampaignDetails.statusInfo campaign = Inherited "constructor"
    /\ CampaignCard.statusBadge campaign
       = {| badge_variant := None; badge_text := None |}
    /\ CampaignDetails.statusBadge campaign
       = {| badge_variant := None; badge_text := None |}
    /\ CampaignCard.statusBadge campaign <> pending_badge
    /\ CampaignDetails.statusBadge campaign <> pending_badge.
Proof.
  intros campaign Hs.
  unfold CampaignCard.statusBadge, CampaignCard.statusInfo,
    CampaignDetails.statusBadge, CampaignDetails.statusInfo.
  rewrite Hs.
  assert (get CampaignCard.statusConfig "constructor" = Inherited "constructor")
    as Hget by (vm_compute; reflexivity).
  change CampaignDetails.statusConfig with CampaignCard.statusConfig.
  rewrite Hget. cbn [or_value render variant_of label_of].
  repeat split; try discriminate.
  unfold known_statuses. cbn. intuition discriminate.
Qed.

Lemma inherited_status_defeats_fallback_witness :
  CampaignCard.statusBadge (Samples.campaign "constructor")
  = {| badge_variant := None; badge_text := None |}
  /\ CampaignDetails.statusBadge (Samples.campaign "constructor")
     = {| badge_variant := None; badge_text := None |}.
Proof.
  destruct (inherited_status_defeats_fallback (Samples.campaign "constructor")
              eq_refl) as (_ & _ & _ & Hcard & Hdetails & _).
  split; assumption.
Defined.

Example disputed_badge :
  CampaignCard.statusBadge (Samples.campaign "disputed")
  = {| badge_variant := Some destructive; badge_text := Some "Disputed" |}.
Proof. vm_compute. reflexivity. Qed.

Example unknown_badge :
  CampaignCard.statusBadge (Samples.campaign "archived") = pending_badge.
Proof. vm_compute. reflexivity. Qed.

End Badges.

(** ** Resolving a dispute *)

Section Resolve.

Import DisputeDetailsPage.

Variable parseFloat : string -> JS.num.

(** C7 (amended): every [resolveDispute] request of the page is keyed by the
    identifier of the dispute, carries a decision among refund,
    release_payment and partial_refund, carries a refund amount exactly when
    the decision is partial_refund, and is made only when the notes are not
    empty (not even blank). *)
Theorem resolveDispute_request :
  forall (server : ApiCall -> Response) (st : State) (c : ApiCall),
    In c (calls (clickResolve parseFloat server st)) ->
    exists d payload,
      dispute st = Some d
      /\ c = resolveDispute (id d) payload
      /\ (rs_decision payload = refund
          \/ rs_decision payload = release_payment
          \/ rs_decision payload = partial_refund)
      /\ (is_Some (rs_refund_amount payload)
          <-> rs_decision payload = partial_refund)
      /\ rs_notes payload = notes st
      /\ notes st <> ""
      /\ trim (notes st) <> "".
Proof.
  intros server st c. unfold clickResolve, resolve_disabled, handleResolve.
  destruct (isProcessing st); cbn [orb]; [intros [] |].
  destruct (String.eqb_spec (trim (notes st)) "") as [Ht | Ht]; [intros [] |].
  destruct (dispute st) as [d|]; [| intros []].
  intros Hc. exists d. eexists. split; [reflexivity |].
  split.
  { cbn [calls] in Hc. destruct (server _); cbn in Hc;
      destruct Hc as [<- | []]; reflexivity. }
  cbn [rs_decision rs_refund_amount rs_notes].
  split; [destruct (decision st); auto |].
  split.
  { destruct (decision st); split; intros H;
      try reflexivity; try discriminate H; try (now eexists);
      destruct H as [x Hx]; discriminate Hx. }
  split; [reflexivity |]. split; [| exact Ht].
  intros Hn. apply Ht. rewrite Hn. reflexivity.
Qed.

End Resolve.

Lemma resolveDispute_request_witness :
  exists d payload,
    DisputeDetailsPage.dispute Samples.page = Some d
    /\ resolveDispute "d-7"
         {| rs_decision := refund; rs_refund_amount := None;
            rs_notes := "No proof of placement" |}
       = resolveDispute (DisputeDetailsPage.id d) payload
    /\ (rs_decision payload = refund
        \/ rs_decision payload = release_payment
        \/ rs_decision payload = partial_refund)
    /\ (is_Some (rs_refund_amount payload)
        <-> rs_decision payload = partial_refund)
    /\ rs_notes payload = DisputeDetailsPage.notes Samples.page
    /\ DisputeDetailsPage.notes Samples.page <> ""
    /\ DisputeDetailsPage.trim (DisputeDetailsPage.notes Samples.page) <> "".
Proof.
  apply (resolveDispute_request (fun _ => JS.NaN) (fun _ => Resolved "c-1")
           Samples.page).
  left. reflexivity.
Defined.

(** The request of the sample page is keyed by the dispute ["d-7"], whose
    campaign is ["c-1"]: the claim that the request is keyed by the
    identifier of the campaign fails. *)
Lemma resolveDispute_not_keyed_by_campaign :
  ~ (forall (parseFloat : string -> JS.num) (server : ApiCall -> Response)
            (st : DisputeDetailsPage.State) (d : DisputeDetailsPage.Dispute)
            (key : string) (payload : Resolution),
        DisputeDetailsPage.dispute st = Some d ->
        In (resolveDispute key payload)
           (calls (DisputeDetailsPage.clickResolve parseFloat server st)) ->
        key = DisputeDetailsPage.campaign_id d).
Proof.
  intros H.
  specialize (H (fun _ => JS.NaN) (fun _ => Resolved "c-1") Samples.page
                Samples.dispute "d-7"
                {| rs_decision := refund; rs_refund_amount := None;
                   rs_notes := "No proof of placement" |}
                eq_refl (or_introl eq_refl)).
  discriminate H.
Qed.

(** Blank notes keep the button disabled: no request. *)
Example blank_notes_no_request :
  DisputeDetailsPage.clickResolve (fun _ => JS.NaN) (fun _ => Resolved "c-1")
    {| DisputeDetailsPage.dispute := Some Samples.dispute;
       DisputeDetailsPage.decision := release_payment;
       DisputeDetailsPage.notes := "   ";
       DisputeDetailsPage.refundAmount := "";
       DisputeDetailsPage.isProcessing := false |}
  = [].
Proof. reflexivity. Qed.

(** ** Creating a campaign *)

Section Create.

Import CreateCampaignForm.

Variable is_url : string -> bool.
Variable parse : string -> option Z.

Lemma z_array_url_nonfatal p l : forall i,
  Forall (fun x => fatal x = false) (z_array_url is_url p i l).
Proof.
  induction l as [|s l IH]; intros i; cbn [z_array_url].
  - constructor.
  - apply Forall_app. split; [apply z_string_nonfatal | apply IH].
Qed.

Lemma fields_nonfatal (d : CreateCampaignFormData) :
  Forall (fun x => fatal x = false) (fields is_url d).
Proof.
  unfold fields.
  repeat first [apply z_string_nonfatal | apply Forall_app; split].
  - unfold z_number_min. destruct (Qle_bool 1 (budget d)); repeat constructor.
  - destruct (creative_images d); cbn [z_optional];
      [apply z_array_url_nonfatal | constructor].
  - unfold z_url_or_empty. destruct (creative_video_url d) as [s|];
      [| constructor].
    destruct (String.eqb s ""); [constructor | apply z_string_nonfatal].
Qed.

(** The refinement of the schema, on parsed dates. *)
Lemma end_after_start (d : CreateCampaignFormData) :
  JS.gt (Date.getTime parse (end_date d)) (Date.getTime parse (start_date d))
  = true
  <-> exists s e, parse (start_date d) = Some s /\ parse (end_date d) = Some e
                  /\ (s < e)%Z.
Proof.
  unfold JS.gt, Date.getTime.
  destruct (parse (start_date d)) as [s|], (parse (end_date d)) as [e|].
  - rewrite lt_of_Z, Z.ltb_lt. split.
    + intros H. now exists s, e.
    + intros (s' & e' & [= <-] & [= <-] & H). exact H.
  - cbn. split; [discriminate | intros (s' & e' & _ & [=] & _)].
  - cbn. split; [discriminate | intros (s' & e' & [=] & _)].
  - cbn. split; [discriminate | intros (s' & e' & [=] & _)].
Qed.

(** C6: [createCampaign] is requested only when the end date is strictly
    after the start date; a submission whose end date is equal to or earlier
    than its start date fails validation with the issue "End date must be
    after start date" and requests nothing, so no campaign is created. *)
Theorem create_requires_end_after_start :
  forall (balance : option Q) (server : ApiCall -> Response)
         (data : CreateCampaignFormData),
    (forall c, In c (requests (submit is_url parse balance server data)) ->
       exists s e,
         parse (start_date data) = Some s /\ parse (end_date data) = Some e
         /\ (s < e)%Z) /\
    (forall s e,
       parse (start_date data) = Some s -> parse (end_date data) = Some e ->
       (e <= s)%Z ->
       exists issues,
         submit is_url parse balance server data = Invalid issues
         /\ In (issue "end_date" "End date must be after start date") issues
         /\ requests (submit is_url parse balance server data) = []).
Proof.
  intros balance server data.
  assert (createCampaignSchema is_url parse data
          = fields is_url data
            ++ (if JS.gt (Date.getTime parse (end_date data))
                         (Date.getTime parse (start_date data))
                then []
                else [issue "end_date" "End date must be after start date"]))
    as Hschema.
  { unfold createCampaignSchema, z_refine.
    now rewrite (existsb_fatal_false _ (fields_nonfatal data)). }
  split.
  - intros c Hc. apply end_after_start.
    unfold submit in Hc.
    destruct (handleSubmit _ _ data) as [issues | es] eqn:Hsub;
      [destruct Hc |].
    apply handleSubmit_Ran in Hsub as [Hnil _].
    rewrite Hschema in Hnil. apply app_eq_nil in Hnil as [_ Hnil].
    destruct (JS.gt _ _); [reflexivity | discriminate Hnil].
  - intros s e Hs He Hle.
    assert (In (issue "end_date" "End date must be after start date")
               (createCampaignSchema is_url parse data)) as Hin.
    { rewrite Hschema. apply in_or_app. right.
      destruct (JS.gt _ _) eqn:Hgt; [| left; reflexivity].
      apply (proj1 (end_after_start data)) in Hgt
        as (s' & e' & Hs' & He' & Hlt).
      rewrite Hs in Hs'. rewrite He in He'.
      injection Hs' as <-. injection He' as <-. lia. }
    exists (createCampaignSchema is_url parse data).
    unfold submit. rewrite (handleSubmit_Invalid _ _ _ _ Hin).
    split; [reflexivity |]. split; [exact Hin | reflexivity].
Qed.

End Create.

Lemma create_requires_end_after_start_witness :
  exists issues,
    CreateCampaignForm.submit (fun _ => true) Samples.parse (Some 50000%Q)
      (fun _ => Resolved "c-1") (Samples.form "2025-01-08" "2025-01-08")
    = Invalid issues
    /\ In (issue "end_date" "End date must be after start date") issues
    /\ requests
         (CreateCampaignForm.submit (fun _ => true) Samples.parse (Some 50000%Q)
            (fun _ => Resolved "c-1") (Samples.form "2025-01-08" "2025-01-08"))
       = [].
Proof.
  apply (proj2 (create_requires_end_after_start (fun _ => true) Samples.parse
                  (Some 50000%Q) (fun _ => Resolved "c-1")
                  (Samples.form "2025-01-08" "2025-01-08"))
           604800000%Z 604800000%Z eq_refl eq_refl).
  lia.
Defined.

(** One week from the first of January: the campaign is requested. *)
Example create_one_week :
  exists payload,
    requests
      (CreateCampaignForm.submit (fun _ => true) Samples.parse (Some 50000%Q)
         (fun _ => Resolved "c-1") (Samples.form "2025-01-01" "2025-01-08"))
    = [createCampaign payload]
    /\ cc_start_date payload = "2025-01-01"
    /\ cc_end_date payload = "2025-01-08".
Proof. eexists. split; [reflexivity | split; reflexivity]. Qed.

(** The same form without enough balance: validation passes, nothing is
    requested. *)
Example create_without_balance :
  CreateCampaignForm.submit (fun _ => true) Samples.parse (Some 500%Q)
    (fun _ => Resolved "c-1") (Samples.form "2025-01-01" "2025-01-08")
  = Ran [ToastError "Insufficient balance. Please top up your account."].
Proof. reflexivity. Qed.

(** ** Submitting the proof of placement *)

Section Submit.

Import SubmitPlacementDialog.

Variable is_url : string -> bool.

Lemma submitSchema_valid (d : SubmitFormData) :
  submitSchema is_url d = [] ->
  is_url (placement_proof_url d) = true
  /\ placement_proof_url d <> ""
  /\ In (placement_proof_type d) proof_types.
Proof.
  unfold submitSchema, z_string, z_url, z_min, z_enum.
  cbn [flat_map passes msg].
  destruct (is_url (placement_proof_url d)); [| discriminate].
  destruct (Nat.leb 1 (String.length (placement_proof_url d))) eqn:Hlen;
    [| discriminate].
  cbn [app].
  destruct (existsb _ _) eqn:Hty; [| discriminate].
  intros _. split; [reflexivity |]. split.
  - intros Hu. rewrite Hu in Hlen. discriminate Hlen.
  - apply existsb_exists in Hty as (t & Ht & Heq).
    apply String.eqb_eq in Heq. now subst.
Qed.

(** C4: a submission with an empty or ill-formed proof URL fails validation
    and requests nothing; a request is made only with a proof type among
    screenshot, post_link and other; the lifecycle manager then sets
    [owner_submitted_at] on an accepted campaign, and a second submission
    fails with [InvalidTransition], leaving the first timestamp and proof in
    place; the action bar no longer offers the submission. *)
Theorem submitPlacement_validated_once :
  forall (campaignId : string) (server : ApiCall -> Response)
         (data : SubmitFormData),
    let url := placement_proof_url data in
    let type := placement_proof_type data in
    let r := submit is_url campaignId server data in
    (url = "" ->
     exists issues,
       r = Invalid issues /\ requests r = []
       /\ In (issue "placement_proof_url" "Proof URL is required") issues) /\
    (is_url url = false ->
     exists issues,
       r = Invalid issues /\ requests r = []
       /\ In (issue "placement_proof_url" "Invalid URL") issues) /\
    (forall c, In c (requests r) ->
       c = submitCampaign campaignId url type /\ In type proof_types) /\
    (forall (campaign : Types.Campaign) (now : string),
       In (submitCampaign campaignId url type) (requests r) ->
       Types.status campaign = "accepted" ->
       exists campaign',
         Lifecycle.submitPlacement Types.channel_owner campaign url type now
         = inr campaign'
         /\ Types.status campaign' = "in_progress"
         /\ Types.owner_submitted_at campaign' = Some now
         /\ Types.placement_proof_url campaign' = Some url
         /\ ~ In CampaignActions.SubmitPlacement
                (CampaignActions.CampaignActions campaign' Types.channel_owner)
         /\ forall url' type' now',
              let again := Lifecycle.submitPlacement Types.channel_owner
                             campaign' url' type' now' in
              url' <> "" -> In type' proof_types ->
              again = inl Lifecycle.InvalidTransition
              /\ Lifecycle.after campaign' again = campaign').
Proof.
  intros campaignId server data url type r.
  assert (forall i, In i (submitSchema is_url data) ->
            exists issues, r = Invalid issues /\ requests r = []
                           /\ In i issues) as Hbad.
  { intros i Hi. exists (submitSchema is_url data). subst r. unfold submit.
    rewrite (handleSubmit_Invalid _ _ _ _ Hi). auto. }
  assert (forall c, In c (requests r) ->
            c = submitCampaign campaignId url type
            /\ submitSchema is_url data = []) as Hreq.
  { intros c Hc. subst r. unfold submit in Hc.
    destruct (handleSubmit _ _ data) as [issues | es] eqn:Hsub;
      [destruct Hc |].
    apply handleSubmit_Ran in Hsub as [Hnil ->]. split; [| exact Hnil].
    unfold onSubmit in Hc. cbn [requests calls] in Hc.
    destruct (server _); cbn in Hc; destruct Hc as [<- | []]; reflexivity. }
  split; [| split; [| split]].
  - intros Hu. apply Hbad. unfold submitSchema, z_string, z_url, z_min.
    cbn [flat_map passes msg]. fold url. rewrite Hu.
    apply in_or_app. left. apply in_or_app. right. left. reflexivity.
  - intros Hu. apply Hbad. unfold submitSchema, z_string, z_url, z_min.
    cbn [flat_map passes msg]. fold url. rewrite Hu.
    left. reflexivity.
  - intros c Hc. destruct (Hreq c Hc) as [-> Hnil].
    split; [reflexivity | now apply submitSchema_valid].
  - intros campaign now Hc Hst.
    destruct (Hreq _ Hc) as [_ Hnil].
    apply submitSchema_valid in Hnil as (_ & Hu & Hty). fold url in Hu.
    fold type in Hty.
    assert (forall u t, u <> "" -> In t proof_types ->
              String.eqb u ""
              || negb (existsb (String.eqb t) ["screenshot"; "post_link"; "other"])
              = false) as Hvalid.
    { intros u t Hne Hin. apply String.eqb_neq in Hne. rewrite Hne.
      cbn [orb]. apply negb_false_iff, existsb_exists.
      exists t. split; [exact Hin | apply String.eqb_refl]. }
    unfold Lifecycle.submitPlacement at 1.
    rewrite (Hvalid url type Hu Hty), Hst. cbn [String.eqb].
    eexists. split; [reflexivity |].
    cbn [Types.status Types.owner_submitted_at Types.placement_proof_url].
    split; [reflexivity |]. split; [reflexivity |]. split; [reflexivity |].
    split.
    + cbn. intuition discriminate.
    + intros url' type' now' Hne Hin.
      unfold Lifecycle.submitPlacement.
      rewrite (Hvalid url' type' Hne Hin). split; reflexivity.
Qed.

End Submit.

Lemma submitPlacement_validated_once_witness :
  (exists issues,
     SubmitPlacementDialog.submit Samples.is_url "c-1" (fun _ => Resolved "c-1")
       {| SubmitPlacementDialog.placement_proof_url := "";
          SubmitPlacementDialog.placement_proof_type := "screenshot";
          SubmitPlacementDialog.owner_notes := None |}
     = Invalid issues
     /\ In (issue "placement_proof_url" "Proof URL is required") issues) /\
  (exists campaign',
     Lifecycle.submitPlacement Types.channel_owner (Samples.campaign "accepted")
       "https://x" "screenshot" "2025-01-02T09:00:00Z"
     = inr campaign'
     /\ Types.owner_submitted_at campaign' = Some "2025-01-02T09:00:00Z"
     /\ Lifecycle.submitPlacement Types.channel_owner campaign'
          "https://y" "post_link" "2025-01-03T09:00:00Z"
        = inl Lifecycle.InvalidTransition).
Proof.
  split.
  - destruct (proj1 (submitPlacement_validated_once Samples.is_url "c-1"
                       (fun _ => Resolved "c-1")
                       {| SubmitPlacementDialog.placement_proof_url := "";
                          SubmitPlacementDialog.placement_proof_type := "screenshot";
                          SubmitPlacementDialog.owner_notes := None |})
                    eq_refl) as (issues & Hr & _ & Hin).
    exists issues. split; assumption.
  - destruct (proj2 (proj2 (proj2
                (submitPlacement_validated_once Samples.is_url "c-1"
                   (fun _ => Resolved "c-1") Samples.proof)))
                (Samples.campaign "accepted") "2025-01-02T09:00:00Z"
                (or_introl eq_refl) eq_refl)
      as (campaign' & Hok & _ & Hat & _ & _ & Hagain).
    exists campaign'. split; [exact Hok |]. split; [exact Hat |].
    apply (Hagain "https://y" "post_link" "2025-01-03T09:00:00Z").
    + discriminate.
    + right. left. reflexivity.
Defined.

(** The end-to-end scenario: the accepted sample campaign, the proof
    [https://x] of type screenshot. *)
Example submit_scenario :
  requests (SubmitPlacementDialog.submit Samples.is_url "c-1"
              (fun _ => Resolved "c-1") Samples.proof)
  = [submitCampaign "c-1" "https://x" "screenshot"].
Proof. reflexivity. Qed.

(** * Further properties *)

(** ** Requests of a submitted form *)

Lemma requests_handleSubmit {D} (schema : D -> list ZodIssue) onSubmit data :
  requests (handleSubmit schema onSubmit data)
  = match schema data with
    | [] => calls (onSubmit data)
    | _ => []
    end.
Proof. unfold handleSubmit. now destruct (schema data). Qed.

Lemma z_max_issues (n : nat) (m p s : string) :
  z_string [z_max n m] p s = if Nat.leb (String.length s) n then [] else [issue p m].
Proof. unfold z_string, z_max. cbn. now destruct (Nat.leb _ _). Qed.

Lemma z_min_issues (n : nat) (m p s : string) :
  z_string [z_min n m] p s = if Nat.leb n (String.length s) then [] else [issue p m].
Proof. unfold z_string, z_min. cbn. now destruct (Nat.leb _ _). Qed.

Lemma calls_accept campaignId server data :
  calls (AcceptCampaignDialog.onSubmit campaignId server data)
  = [acceptCampaign campaignId (AcceptCampaignDialog.owner_notes data)].
Proof. unfold AcceptCampaignDialog.onSubmit. cbn. now destruct (server _). Qed.

Lemma calls_reject campaignId server data :
  calls (RejectCampaignDialog.onSubmit campaignId server data)
  = [rejectCampaign campaignId (RejectCampaignDialog.reason data)].
Proof. unfold RejectCampaignDialog.onSubmit. cbn. now destruct (server _). Qed.

Lemma calls_proof campaignId server data :
  calls (SubmitPlacementDialog.onSubmit campaignId server data)
  = [submitCampaign campaignId
       (SubmitPlacementDialog.placement_proof_url data)
       (SubmitPlacementDialog.placement_proof_type data)].
Proof. unfold SubmitPlacementDialog.onSubmit. cbn. now destruct (server _). Qed.

Lemma calls_confirm campaign server data :
  calls (ConfirmCampaignDialog.onSubmit campaign server data)
  = [confirmCampaign (Types.id campaign)
       (ConfirmCampaignDialog.confirmed data) None].
Proof. unfold ConfirmCampaignDialog.onSubmit. cbn. now destruct (server _). Qed.

Lemma calls_cancel campaign server answer :
  calls (ActionFlow.clickCancel campaign server answer)
  = if answer then [cancelCampaign (Types.id campaign)] else [].
Proof.
  unfold ActionFlow.clickCancel. destruct answer; [| reflexivity].
  cbn. now destruct (server _).
Qed.

(** ** Accepting a campaign *)

Section Accept.

Import AcceptCampaignDialog.

(** X1: the accept dialog requests [acceptCampaign] with the identifier it
    was given and the notes exactly as entered, and does so exactly when the
    notes are absent or at most 500 characters long; longer notes give the
    issue of the schema and no request. *)
Theorem accept_forwards_notes :
  forall (campaignId : string) (server : ApiCall -> Response)
         (data : AcceptFormData),
    let fits := match owner_notes data with
                | Some s => String.length s <= 500
                | None => True
                end in
    (fits ->
     requests (submit campaignId server data)
     = [acceptCampaign campaignId (owner_notes data)]) /\
    (~ fits ->
     submit campaignId server data
     = Invalid [issue "owner_notes" "Notes must be less than 500 characters"]) /\
    (forall c, In c (requests (submit campaignId server data)) ->
               fits /\ c = acceptCampaign campaignId (owner_notes data)).
Proof.
  intros campaignId server [notes] fits. subst fits. unfold submit.
  rewrite requests_handleSubmit, calls_accept. unfold handleSubmit, acceptSchema.
  cbn [owner_notes]. destruct notes as [s|]; cbn [z_optional].
  - rewrite z_max_issues.
    destruct (Nat.leb_spec (String.length s) 500) as [Hle | Hgt].
    + split; [reflexivity |]. split; [intros Hn; now elim Hn |].
      intros c [<- | []]. split; [exact Hle | reflexivity].
    + split; [intros Hle; lia |]. split; [reflexivity |]. intros c [].
  - split; [reflexivity |]. split; [intros Hn; now elim Hn |].
    intros c [<- | []]. split; [exact I | reflexivity].
Qed.

End Accept.

Lemma accept_forwards_notes_witness :
  requests (AcceptCampaignDialog.submit "c-1" (fun _ => Rejected None)
              {| AcceptCampaignDialog.owner_notes := Some "Will post on Monday" |})
  = [acceptCampaign "c-1" (Some "Will post on Monday")].
Proof.
  apply (proj1 (accept_forwards_notes "c-1" (fun _ => Rejected None)
                  {| AcceptCampaignDialog.owner_notes :=
                       Some "Will post on Monday" |})).
  simpl. lia.
Defined.

(** ** Notes in the placement dialog *)

Section ProofNotes.

Import SubmitPlacementDialog.

Variable is_url : string -> bool.

(** X2: the notes of the placement dialog are checked but never sent: notes
    longer than 500 characters block the submission, and otherwise the
    requests are the same whatever the notes are. *)
Theorem proof_notes_not_sent :
  forall (campaignId : string) (server : ApiCall -> Response)
         (url type : string) (notes notes' : option string),
    let form n := {| placement_proof_url := url; placement_proof_type := type;
                     owner_notes := n |} in
    let fits n := match n with
                  | Some s => String.length s <= 500
                  | None => True
                  end in
    (fits notes -> fits notes' ->
     requests (submit is_url campaignId server (form notes))
     = requests (submit is_url campaignId server (form notes'))) /\
    (~ fits notes ->
     requests (submit is_url campaignId server (form notes)) = []
     /\ exists issues,
          submit is_url campaignId server (form notes) = Invalid issues
          /\ In (issue "owner_notes" "Notes must be less than 500 characters")
                issues).
Proof.
  intros campaignId server url type notes notes' form fits.
  assert (forall n, fits n ->
            submitSchema is_url (form n) = submitSchema is_url (form None))
    as Hsame.
  { intros [s|] Hn; [| reflexivity]. unfold submitSchema. cbn [form owner_notes
      placement_proof_url placement_proof_type z_optional].
    rewrite z_max_issues. cbn in Hn. apply Nat.leb_le in Hn. now rewrite Hn. }
  split.
  - intros Hn Hn'. unfold submit.
    rewrite !requests_handleSubmit, !calls_proof, (Hsame _ Hn), (Hsame _ Hn').
    reflexivity.
  - intros Hn. destruct notes as [s|]; [| now elim Hn]. cbn in Hn.
    assert (In (issue "owner_notes" "Notes must be less than 500 characters")
               (submitSchema is_url (form (Some s)))) as Hin.
    { unfold submitSchema. cbn [form owner_notes z_optional].
      rewrite z_max_issues. apply Nat.nle_gt, Nat.leb_gt in Hn. rewrite Hn.
      apply in_or_app. right. apply in_or_app. right. left. reflexivity. }
    unfold submit. rewrite (handleSubmit_Invalid _ _ _ _ Hin).
    split; [reflexivity | eauto].
Qed.

End ProofNotes.

Lemma proof_notes_not_sent_witness :
  requests (SubmitPlacementDialog.submit Samples.is_url "c-1"
              (fun _ => Resolved "c-1")
              {| SubmitPlacementDialog.placement_proof_url := "https://x";
                 SubmitPlacementDialog.placement_proof_type := "screenshot";
                 SubmitPlacementDialog.owner_notes := Some "Pinned for 24 hours" |})
  = requests (SubmitPlacementDialog.submit Samples.is_url "c-1"
                (fun _ => Resolved "c-1")
                {| SubmitPlacementDialog.placement_proof_url := "https://x";
                   SubmitPlacementDialog.placement_proof_type := "screenshot";
                   SubmitPlacementDialog.owner_notes := None |}).
Proof.
  apply (proj1 (proof_notes_not_sent Samples.is_url "c-1"
                  (fun _ => Resolved "c-1") "https://x" "screenshot"
                  (Some "Pinned for 24 hours") None)).
  - simpl. lia.
  - exact I.
Defined.

(** ** When the confirmation dialog sends anything *)

Section ConfirmRequests.

Import ConfirmCampaignDialog.

Lemma confirmSchema_cases (data : ConfirmFormData) :
  confirmSchema data = [] <->
  (reason data = None /\ confirmed data = true)
  \/ exists s, reason data = Some s /\ 10 <= String.length s.
Proof.
  destruct data as [ok r]. unfold confirmSchema, z_refine. cbn [confirmed reason].
  destruct r as [s|]; cbn [z_optional].
  - change (default "" (Some s)) with s.
    rewrite existsb_fatal_false by apply z_string_nonfatal.
    rewrite z_min_issues.
    destruct (Nat.leb_spec 10 (String.length s)) as [Hlen | Hlen].
    + assert (JS.truthy (Some s) = true) as ->
          by (destruct s; [simpl in Hlen; lia | reflexivity]).
      destruct ok; cbn; (split; [intros _; right; eauto | reflexivity]).
    + split; [discriminate |].
      intros [[[=] _] | (s' & [= <-] & Hs')]. lia.
  - destruct ok; cbn.
    + split; [intros _; left; auto | reflexivity].
    + split; [discriminate |]. intros [[_ [=]] | (s' & [=] & _)].
Qed.

(** X3: the confirmation dialog makes at most the one request
    [confirmCampaign(campaign.id, confirmed)], and makes it exactly when the
    reason is undefined and the seller confirms, or the reason has at least
    10 characters. With a shorter reason, the empty one of the default
    values included, nothing is sent even when the seller confirms. *)
Theorem confirm_request_condition :
  forall (campaign : Types.Campaign) (server : ApiCall -> Response)
         (data : ConfirmFormData),
    let sent := requests (submit campaign server data) in
    (sent = [] \/
     sent = [confirmCampaign (Types.id campaign) (confirmed data) None]) /\
    (sent <> [] <->
     (reason data = None /\ confirmed data = true)
     \/ exists s, reason data = Some s /\ 10 <= String.length s) /\
    (forall s, reason data = Some s -> String.length s < 10 -> sent = []).
Proof.
  intros campaign server data sent. subst sent. unfold submit.
  rewrite requests_handleSubmit, calls_confirm.
  pose proof (confirmSchema_cases data) as Hcases.
  destruct (confirmSchema data) as [| i issues].
  - split; [right; reflexivity |]. split.
    + split; [intros _; now apply Hcases | discriminate].
    + intros s Hs Hlen.
      destruct (proj1 Hcases eq_refl) as [[Hn _] | (s' & Hs' & Hlen')];
        [congruence |].
      rewrite Hs in Hs'. injection Hs' as <-. lia.
  - split; [left; reflexivity |]. split; [| reflexivity].
    split; [intros H; now elim H |].
    intros H. apply Hcases in H. discriminate H.
Qed.

End ConfirmRequests.

Lemma confirm_request_condition_witness :
  requests (ConfirmCampaignDialog.submit (Samples.campaign "in_progress")
              (fun _ => Resolved "c-1")
              {| ConfirmCampaignDialog.confirmed := true;
                 ConfirmCampaignDialog.reason := Some "" |})
  = [].
Proof.
  apply (proj2 (proj2 (confirm_request_condition
                         (Samples.campaign "in_progress")
                         (fun _ => Resolved "c-1")
                         {| ConfirmCampaignDialog.confirmed := true;
                            ConfirmCampaignDialog.reason := Some "" |}))
           "" eq_refl).
  simpl. lia.
Defined.

(** ** From the action bar to the API *)

Section Flow.

Import Types CampaignActions ActionFlow.

Variable is_url : string -> bool.

(** X4: whatever the user does with the action bar, at most one request is
    made, it is keyed by the identifier of the campaign shown, and it is the
    operation of the button's own case: accept and reject only for a channel
    owner on a pending campaign (reject with a reason of 10 to 500
    characters), submit only for a channel owner on an accepted campaign,
    cancel only for a seller on a pending campaign, confirm only for a seller
    on a campaign in progress whose placement was submitted; creating a
    campaign or resolving a dispute is never requested from here. *)
Theorem perform_in_status :
  forall (campaign : Campaign) (userType : UserType)
         (server : ApiCall -> Response) (i : Interaction) (c : ApiCall),
    In c (perform is_url campaign userType server i) ->
    perform is_url campaign userType server i = [c] /\
    match c with
    | acceptCampaign k _ =>
        k = id campaign /\ userType = channel_owner
        /\ status campaign = "pending"
    | rejectCampaign k r =>
        k = id campaign /\ userType = channel_owner
        /\ status campaign = "pending" /\ 10 <= String.length r <= 500
    | submitCampaign k _ _ =>
        k = id campaign /\ userType = channel_owner
        /\ status campaign = "accepted"
    | cancelCampaign k =>
        k = id campaign /\ userType = seller /\ status campaign = "pending"
    | confirmCampaign k _ _ =>
        k = id campaign /\ userType = seller
        /\ status campaign = "in_progress"
        /\ JS.truthy (owner_submitted_at campaign) = true
    | createCampaign _ | resolveDispute _ _ => False
    end.
Proof.
  intros campaign userType server i c. unfold perform.
  case_bool_decide as Hoffered; [| intros []].
  apply list_elem_of_In in Hoffered.
  rewrite CampaignActions_table in Hoffered.
  assert (match button i with
          | Accept | Reject =>
              userType = channel_owner /\ status campaign = "pending"
          | SubmitPlacement =>
              userType = channel_owner /\ status campaign = "accepted"
          | CancelCampaign => userType = seller /\ status campaign = "pending"
          | ReviewConfirm =>
              userType = seller /\ status campaign = "in_progress"
              /\ JS.truthy (owner_submitted_at campaign) = true
          end) as Hcase.
  { destruct userType; repeat case_decide;
      destruct (button i); cbn in Hoffered; intuition discriminate. }
  clear Hoffered. destruct i as [data | data | data | answer | data];
    cbn [button] in Hcase.
  - unfold AcceptCampaignDialog.submit.
    rewrite requests_handleSubmit, calls_accept.
    destruct (AcceptCampaignDialog.acceptSchema data); [| intros []].
    intros [<- | []]. split; [reflexivity | tauto].
  - unfold RejectCampaignDialog.submit.
    rewrite requests_handleSubmit, calls_reject.
    destruct (RejectCampaignDialog.rejectSchema data) eqn:Hschema;
      [| intros []].
    intros [<- | []]. split; [reflexivity |].
    unfold RejectCampaignDialog.rejectSchema, z_string, z_min, z_max in Hschema.
    cbn [flat_map passes msg] in Hschema.
    destruct (Nat.leb_spec 10 (String.length (RejectCampaignDialog.reason data)));
      [| discriminate Hschema].
    destruct (Nat.leb_spec (String.length (RejectCampaignDialog.reason data)) 500);
      [| discriminate Hschema].
    intuition lia.
  - unfold SubmitPlacementDialog.submit.
    rewrite requests_handleSubmit, calls_proof.
    destruct (SubmitPlacementDialog.submitSchema is_url data); [| intros []].
    intros [<- | []]. split; [reflexivity | tauto].
  - rewrite calls_cancel. destruct answer; [| intros []].
    intros [<- | []]. split; [reflexivity | tauto].
  - unfold ConfirmCampaignDialog.submit.
    rewrite requests_handleSubmit, calls_confirm.
    destruct (ConfirmCampaignDialog.confirmSchema data); [| intros []].
    intros [<- | []]. split; [reflexivity | tauto].
Qed.

End Flow.

Lemma perform_in_status_witness :
  ActionFlow.perform Samples.is_url (Samples.campaign "pending") Types.seller
    (fun _ => Resolved "c-1") (ActionFlow.ClickCancel true)
  = [cancelCampaign "c-1"].
Proof.
  apply (proj1 (perform_in_status Samples.is_url (Samples.campaign "pending")
                  Types.seller (fun _ => Resolved "c-1")
                  (ActionFlow.ClickCancel true) (cancelCampaign "c-1")
                  (or_introl eq_refl))).
Defined.

(** A seller cannot reject, whatever the form holds: the button is not
    there. *)
Example seller_cannot_reject :
  ActionFlow.perform Samples.is_url (Samples.campaign "pending") Types.seller
    (fun _ => Resolved "c-1")
    (ActionFlow.SubmitReject
       {| RejectCampaignDialog.reason := "Not a good fit for my audience" |})
  = [].
Proof. reflexivity. Qed.

(** ** The shape of the timeline *)

Section TimelineShape.

Import CampaignTimeline TimelineView.

(** The statuses the timeline tests for, or none of them. *)
Lemma timeline_status_cases (s : string) :
  s = "pending" \/ s = "accepted" \/ s = "in_progress" \/ s = "completed"
  \/ s = "rejected" \/ s = "cancelled"
  \/ (String.eqb s "pending" = false /\ String.eqb s "accepted" = false
      /\ String.eqb s "in_progress" = false /\ String.eqb s "completed" = false
      /\ String.eqb s "rejected" = false /\ String.eqb s "cancelled" = false).
Proof.
  destruct (String.eqb_spec s "pending"); [tauto |].
  destruct (String.eqb_spec s "accepted"); [tauto |].
  destruct (String.eqb_spec s "in_progress"); [tauto |].
  destruct (String.eqb_spec s "completed"); [tauto |].
  destruct (String.eqb_spec s "rejected"); [tauto |].
  destruct (String.eqb_spec s "cancelled"); tauto.
Qed.

Ltac timeline_cases campaign :=
  unfold steps, initial_steps, includes;
  destruct (timeline_status_cases (Types.status campaign))
    as [Hs | [Hs | [Hs | [Hs | [Hs | [Hs | (H1 & H2 & H3 & H4 & H5 & H6)]]]]]];
  [rewrite Hs .. | cbn [existsb]; rewrite H1, H2, H3, H4, H5, H6];
  cbn [String.eqb Ascii.eqb Bool.eqb existsb orb andb lookup list_lookup
       insert list_insert id label icon date completed current].

(** X5: the timeline always has the same five steps in the same order, the
    first of them completed; only the label of the second changes, to
    Rejected or Cancelled for a campaign of that status. *)
Theorem timeline_shape :
  forall campaign : Types.Campaign,
    map id (steps campaign)
    = ["created"; "accepted"; "submitted"; "confirmed"; "completed"]
    /\ map label (steps campaign)
       = ["Created";
          if String.eqb (Types.status campaign) "rejected" then "Rejected"
          else if String.eqb (Types.status campaign) "cancelled"
               then "Cancelled" else "Accepted";
          "Placement Submitted"; "Confirmed by Seller"; "Completed"]
    /\ (exists first, steps campaign !! 0%nat = Some first
                      /\ completed first = true).
Proof.
  intros campaign. timeline_cases campaign;
    (split; [reflexivity |]; split; [reflexivity |];
     eexists; split; reflexivity).
Qed.

(** X6: no step is ever current without being completed as well. So the
    marker of a step is green or grey, never the blue one with the clock, and
    the line "In progress..." is never shown. *)
Theorem timeline_never_in_progress :
  forall (campaign : Types.Campaign) (step : TimelineStep),
    In step (steps campaign) ->
    (current step = true -> completed step = true)
    /\ in_progress_hint step = false
    /\ marker step <> Blue
    /\ marker_icon step <> Clock.
Proof.
  intros campaign step Hin.
  assert (current step = true -> completed step = true) as Himp.
  { revert Hin. timeline_cases campaign;
      intros [<- | [<- | [<- | [<- | [<- | []]]]]];
      cbn [completed current];
      try discriminate; try reflexivity;
      destruct (JS.truthy _); try discriminate; reflexivity. }
  split; [exact Himp |].
  unfold in_progress_hint, marker, marker_icon.
  destruct (completed step), (current step); cbn;
    try (specialize (Himp eq_refl); discriminate Himp);
    repeat split; discriminate.
Qed.

(** X7: some step is marked current exactly when the campaign is pending,
    accepted or completed, or in progress with the placement submitted; a
    rejected, cancelled or disputed campaign has no current step. *)
Theorem timeline_current_step :
  forall campaign : Types.Campaign,
    (exists step, In step (steps campaign) /\ current step = true) <->
    Types.status campaign = "pending" \/ Types.status campaign = "accepted"
    \/ Types.status campaign = "completed"
    \/ (Types.status campaign = "in_progress"
        /\ JS.truthy (Types.owner_submitted_at campaign) = true).
Proof.
  intros campaign. split.
  - intros (step & Hin & Hcur).
    unfold steps, initial_steps, includes in Hin.
    destruct (timeline_status_cases (Types.status campaign))
      as [Hs | [Hs | [Hs | [Hs | [Hs | [Hs | (H1 & H2 & H3 & H4 & H5 & H6)]]]]]];
      try tauto;
      [rewrite Hs in Hin .. | cbn [existsb] in Hin;
                              rewrite H1, H2, H3, H4, H5, H6 in Hin];
      cbn [String.eqb Ascii.eqb Bool.eqb existsb orb andb lookup list_lookup
           insert list_insert] in Hin;
      destruct Hin as [<- | [<- | [<- | [<- | [<- | []]]]]];
      cbn [current] in Hcur; try discriminate Hcur.
    right. right. right. split; [exact Hs | exact Hcur].
  - intros [Hs | [Hs | [Hs | [Hs Hsub]]]];
      unfold steps, initial_steps, includes; rewrite Hs; try rewrite Hsub;
      cbn [String.eqb Ascii.eqb Bool.eqb existsb orb andb].
    + eexists. split; [left; reflexivity | reflexivity].
    + eexists. split; [right; left; reflexivity | reflexivity].
    + eexists. split; [do 4 right; left; reflexivity | reflexivity].
    + eexists. split; [do 2 right; left; reflexivity | reflexivity].
Qed.

End TimelineShape.

Lemma timeline_never_in_progress_witness :
  TimelineView.in_progress_hint
    {| CampaignTimeline.id := "accepted"; CampaignTimeline.label := "Accepted";
       CampaignTimeline.icon := CampaignTimeline.CheckCircle2;
       CampaignTimeline.date := Some "2025-01-02T09:00:00Z";
       CampaignTimeline.completed := true; CampaignTimeline.current := true |}
  = false.
Proof.
  apply (timeline_never_in_progress (Samples.campaign "accepted")).
  right. left. reflexivity.
Defined.

(** ** The progress bar over time *)

Lemma Qsign_sub_inject_Z (x y : Z) :
  JS.Qsign (inject_Z x - inject_Z y) = (x ?= y)%Z.
Proof.
  unfold JS.Qsign, Qcompare, Qminus, Qplus, Qopp, inject_Z. cbn.
  rewrite (Z.compare_sub x y). f_equal. lia.
Qed.

(** The three cases of the clamp of a finite number. *)
Lemma clamp_cases (x : Q) :
  let clamped := JS.Math_max (JS.Fin 0) (JS.Math_min (JS.Fin 100) (JS.Fin x)) in
  (clamped = JS.Fin 0 /\ x <= 0)%Q
  \/ (clamped = JS.Fin x /\ 0 < x /\ x < 100)%Q
  \/ (clamped = JS.Fin 100 /\ 100 <= x)%Q.
Proof.
  cbn zeta. unfold JS.Math_min, JS.lt.
  destruct (x ?= 100)%Q eqn:Hx.
  - apply Qeq_alt in Hx. right. right. split; [reflexivity | lra].
  - apply Qlt_alt in Hx. unfold JS.Math_max, JS.lt.
    destruct (0 ?= x)%Q eqn:H0.
    + apply Qeq_alt in H0. left. split; [reflexivity | lra].
    + apply Qlt_alt in H0. right. left. auto.
    + apply Qgt_alt in H0. left. split; [reflexivity | lra].
  - apply Qgt_alt in Hx. right. right. split; [reflexivity | lra].
Qed.

Section ProgressOverTime.

Import CampaignCard.

Variable parse : string -> option Z.

(** The progress of a campaign with parsed dates [s < e]. *)
Lemma progress_ratio (campaign : Types.Campaign) (s e now : Z) :
  parse (Types.start_date campaign) = Some s ->
  parse (Types.end_date campaign) = Some e ->
  (s < e)%Z ->
  progress parse campaign now
  = JS.Math_max (JS.Fin 0)
      (JS.Math_min (JS.Fin 100)
         (JS.Fin ((inject_Z now - inject_Z s) / (inject_Z e - inject_Z s) * 100))).
Proof.
  intros Hs He Hlt. unfold progress, Date.getTime. rewrite Hs, He.
  unfold JS.of_Z. cbn [JS.sub]. unfold JS.div.
  rewrite Qsign_sub_inject_Z. apply Z.compare_gt_iff in Hlt. now rewrite Hlt.
Qed.

Lemma ratio_le (a b d : Q) : (0 < d -> a <= b -> a / d * 100 <= b / d * 100)%Q.
Proof.
  intros Hd Hab.
  assert (a / d <= b / d)%Q.
  { unfold Qdiv. apply Qmult_le_compat_r; [exact Hab |].
    apply Qlt_le_weak, Qinv_lt_0_compat, Hd. }
  lra.
Qed.

(** X8: with the end date after the start date, the bar is empty at every
    time up to the start and full at every time from the end on. *)
Theorem progress_at_ends :
  forall (campaign : Types.Campaign) (s e now : Z),
    parse (Types.start_date campaign) = Some s ->
    parse (Types.end_date campaign) = Some e ->
    (s < e)%Z ->
    ((now <= s)%Z -> progress parse campaign now = JS.Fin 0)
    /\ ((e <= now)%Z -> progress parse campaign now = JS.Fin 100).
Proof.
  intros campaign s e now Hs He Hlt.
  rewrite (progress_ratio campaign s e now Hs He Hlt).
  set (a := (inject_Z now - inject_Z s)%Q).
  set (d := (inject_Z e - inject_Z s)%Q).
  assert (0 < d)%Q as Hd
      by (subst d; assert (inject_Z s < inject_Z e)%Q by (now rewrite <- Zlt_Qlt);
          lra).
  assert (0 / d * 100 == 0)%Q as Hzero by (unfold Qdiv; ring).
  assert (d / d * 100 == 100)%Q as Hfull by (field; lra).
  destruct (clamp_cases (a / d * 100)) as [[-> Hx] | [[-> Hx] | [-> Hx]]].
  - split; [reflexivity |].
    intros Hn. exfalso.
    assert (d <= a)%Q as Hda
      by (subst a d; assert (inject_Z e <= inject_Z now)%Q
            by (now rewrite <- Zle_Qle); lra).
    pose proof (ratio_le d a d Hd Hda). lra.
  - split.
    + intros Hn. exfalso.
      assert (a <= 0)%Q as Ha0
        by (subst a; assert (inject_Z now <= inject_Z s)%Q
              by (now rewrite <- Zle_Qle); lra).
      pose proof (ratio_le a 0 d Hd Ha0). lra.
    + intros Hn. exfalso.
      assert (d <= a)%Q as Hda
        by (subst a d; assert (inject_Z e <= inject_Z now)%Q
              by (now rewrite <- Zle_Qle); lra).
      pose proof (ratio_le d a d Hd Hda). lra.
  - split; [| reflexivity].
    intros Hn. exfalso.
    assert (a <= 0)%Q as Ha0
      by (subst a; assert (inject_Z now <= inject_Z s)%Q
            by (now rewrite <- Zle_Qle); lra).
    pose proof (ratio_le a 0 d Hd Ha0). lra.
Qed.

(** X9: with the end date after the start date, the progress never goes
    back as time passes. *)
Theorem progress_monotone :
  forall (campaign : Types.Campaign) (s e now now' : Z),
    parse (Types.start_date campaign) = Some s ->
    parse (Types.end_date campaign) = Some e ->
    (s < e)%Z -> (now <= now')%Z ->
    exists p p' : Q,
      progress parse campaign now = JS.Fin p
      /\ progress parse campaign now' = JS.Fin p'
      /\ (p <= p')%Q.
Proof.
  intros campaign s e now now' Hs He Hlt Hnow.
  rewrite !(progress_ratio campaign s e _ Hs He Hlt).
  set (d := (inject_Z e - inject_Z s)%Q).
  assert (0 < d)%Q as Hd
      by (subst d; assert (inject_Z s < inject_Z e)%Q by (now rewrite <- Zlt_Qlt);
          lra).
  assert (inject_Z now - inject_Z s <= inject_Z now' - inject_Z s)%Q as Ha
      by (assert (inject_Z now <= inject_Z now')%Q by (now rewrite <- Zle_Qle);
          lra).
  pose proof (ratio_le _ _ d Hd Ha) as Hx.
  destruct (clamp_cases ((inject_Z now - inject_Z s) / d * 100))
    as [[-> H1] | [[-> H1] | [-> H1]]];
    destruct (clamp_cases ((inject_Z now' - inject_Z s) / d * 100))
      as [[-> H2] | [[-> H2] | [-> H2]]];
    do 2 eexists; (split; [reflexivity |]); (split; [reflexivity |]); lra.
Qed.

(** X10: whatever the dates, the progress is NaN or a number of [0, 100];
    it is NaN exactly when a date does not parse, or when start and end
    coincide and the clock shows that very instant. Dates in the wrong order
    still give a number of [0, 100]. *)
Theorem progress_nan :
  forall (campaign : Types.Campaign) (now : Z),
    (progress parse campaign now = JS.NaN
     \/ JS.within 0 100 (progress parse campaign now))
    /\ (progress parse campaign now = JS.NaN <->
        parse (Types.start_date campaign) = None
        \/ parse (Types.end_date campaign) = None
        \/ (parse (Types.start_date campaign) = Some now
            /\ parse (Types.end_date campaign) = Some now)).
Proof.
  intros campaign now. unfold progress, Date.getTime.
  destruct (parse (Types.start_date campaign)) as [s|];
    [| split; [left; reflexivity | split; [tauto | reflexivity]]].
  destruct (parse (Types.end_date campaign)) as [e|];
    [| split; [left; reflexivity | split; [tauto | reflexivity]]].
  unfold JS.of_Z. cbn [JS.sub]. unfold JS.div.
  rewrite !Qsign_sub_inject_Z.
  destruct (e ?= s)%Z eqn:Hes.
  - apply Z.compare_eq in Hes. subst e.
    destruct (now ?= s)%Z eqn:Hns; cbn.
    + apply Z.compare_eq in Hns. subst s.
      split; [left; reflexivity | split; [tauto | reflexivity]].
    + split; [right; split; discriminate |]. split; [discriminate |].
      intros [[=] | [[=] | [[= <-] _]]]. rewrite Z.compare_refl in Hns.
      discriminate Hns.
    + split; [right; split; discriminate |]. split; [discriminate |].
      intros [[=] | [[=] | [[= <-] _]]]. rewrite Z.compare_refl in Hns.
      discriminate Hns.
  - cbn [JS.mul].
    pose proof (clamp_within
                  ((inject_Z now - inject_Z s) / (inject_Z e - inject_Z s) * 100))
      as Hw.
    split; [right; exact Hw |]. split.
    + intros Hn. rewrite Hn in Hw. destruct Hw.
    + intros [[=] | [[=] | [[= <-] [= <-]]]]. rewrite Z.compare_refl in Hes.
      discriminate Hes.
  - cbn [JS.mul].
    pose proof (clamp_within
                  ((inject_Z now - inject_Z s) / (inject_Z e - inject_Z s) * 100))
      as Hw.
    split; [right; exact Hw |]. split.
    + intros Hn. rewrite Hn in Hw. destruct Hw.
    + intros [[=] | [[=] | [[= <-] [= <-]]]]. rewrite Z.compare_refl in Hes.
      discriminate Hes.
Qed.

End ProgressOverTime.

Lemma progress_at_ends_witness :
  CampaignCard.progress Samples.parse (Samples.campaign "in_progress") 604800000
  = JS.Fin 100.
Proof.
  apply (proj2 (progress_at_ends Samples.parse
                  (Samples.campaign "in_progress") 0 604800000 604800000
                  eq_refl eq_refl eq_refl)).
  lia.
Defined.

Lemma progress_monotone_witness :
  exists p p' : Q,
    CampaignCard.progress Samples.parse (Samples.campaign "in_progress") 1000
    = JS.Fin p
    /\ CampaignCard.progress Samples.parse (Samples.campaign "in_progress") 2000
       = JS.Fin p'
    /\ (p <= p')%Q.
Proof.
  apply (progress_monotone Samples.parse (Samples.campaign "in_progress")
           0 604800000 1000 2000 eq_refl eq_refl eq_refl).
  lia.
Defined.

(** Dates in the wrong order still give a number of the interval: half way
    between the (earlier) end 0 and the (later) start 10 the bar is half
    full. *)
Example progress_reversed_dates :
  exists p : Q,
    CampaignCard.progress (fun s => if String.eqb s "2025-01-01" then Some 10%Z
                                    else Some 0%Z)
      (Samples.campaign "in_progress") 5
    = JS.Fin p
    /\ (p == 50)%Q.
Proof. eexists. split; reflexivity. Qed.

(** ** What the creation form sends *)

Section CreatePayload.

Import CreateCampaignForm CreateCampaignInputs.

Variable is_url : string -> bool.
Variable parse : string -> option Z.

Lemma z_array_url_nil (p : string) (l : list string) : forall i,
  z_array_url is_url p i l = [] <-> Forall (fun u => is_url u = true) l.
Proof.
  induction l as [| u l IH]; intros i; cbn [z_array_url].
  - split; [constructor | reflexivity].
  - unfold z_string at 1, z_url. cbn [flat_map passes msg].
    destruct (is_url u) eqn:Hu; cbn [app].
    + rewrite IH. split; [now constructor | now inversion 1].
    + split; [discriminate | inversion 1; congruence].
Qed.

(** X11: the image URLs the form keeps from the comma-separated input are
    trimmed parts of the input that parse as URLs; the schema never raises
    an issue about them: an ill-formed entry is dropped without a word. *)
Theorem images_always_valid :
  forall (value : string),
    (forall p i, z_array_url is_url p i (handleImagesChange is_url value) = [])
    /\ (forall u, In u (handleImagesChange is_url value) <->
          is_url u = true
          /\ exists part, In part (split_comma value)
                          /\ u = DisputeDetailsPage.trim part).
Proof.
  intros value.
  assert (forall u, In u (handleImagesChange is_url value) <->
            is_url u = true
            /\ exists part, In part (split_comma value)
                            /\ u = DisputeDetailsPage.trim part) as Hin.
  { intros u. unfold handleImagesChange. rewrite filter_In, in_map_iff.
    split.
    - intros [(part & <- & Hpart) Hu]. eauto.
    - intros [Hu (part & Hpart & ->)]. eauto. }
  split; [| exact Hin].
  intros p i. apply z_array_url_nil, List.Forall_forall.
  intros u Hu. now apply Hin in Hu.
Qed.

Lemma fields_nil (d : CreateCampaignFormData) :
  fields is_url d = [] ->
  channel_id d <> ""
  /\ (1 <= budget d)%Q
  /\ 10 <= String.length (creative_text d) <= 2000
  /\ (forall l, creative_images d = Some l ->
                Forall (fun u => is_url u = true) l)
  /\ (forall u, creative_video_url d = Some u -> u = "" \/ is_url u = true).
Proof.
  unfold fields. intros H.
  repeat (apply app_eq_nil in H; destruct H as [? H]).
  rewrite z_min_issues in *.
  split; [| split; [| split; [| split]]].
  - intros Hc.
    match goal with
    | Hch : (if Nat.leb 1 (String.length (channel_id d)) then _ else _) = _ |- _ =>
        rewrite Hc in Hch; discriminate Hch
    end.
  - match goal with
    | Hb : z_number_min _ _ _ _ = [] |- _ =>
        unfold z_number_min in Hb;
        destruct (Qle_bool 1 (budget d)) eqn:Hq; [| discriminate Hb];
        now apply Qle_bool_iff
    end.
  - match goal with
    | Ht : z_string [_; _] "creative_text" _ = [] |- _ =>
        unfold z_string, z_min, z_max in Ht; cbn [flat_map passes msg] in Ht;
        destruct (Nat.leb_spec 10 (String.length (creative_text d)));
        [| discriminate Ht];
        destruct (Nat.leb_spec (String.length (creative_text d)) 2000);
        [| discriminate Ht]; lia
    end.
  - intros l Hl.
    match goal with
    | Hi : z_optional _ "creative_images" _ = [] |- _ =>
        rewrite Hl in Hi; cbn [z_optional] in Hi;
        now apply z_array_url_nil in Hi
    end.
  - intros u Hu. unfold z_url_or_empty in H. rewrite Hu in H.
    destruct (String.eqb_spec u ""); [now left | right].
    unfold z_string, z_url in H. cbn [flat_map passes msg] in H.
    destruct (is_url u); [reflexivity | discriminate H].
Qed.

(** X12: a [createCampaign] request of the form always carries a chosen
    channel, a budget of at least 1 that the known balance covers, a creative
    text of 10 to 2000 characters and dates with the end after the start;
    image URLs are sent only as a non-empty list of well-formed URLs and the
    video URL only when it is a non-empty well-formed URL: empty optional
    fields are left out of the request. *)
Theorem create_payload_wellformed :
  forall (balance : option Q) (server : ApiCall -> Response)
         (data : CreateCampaignFormData) (payload : CampaignCreate),
    In (createCampaign payload)
       (requests (submit is_url parse balance server data)) ->
    cc_channel_id payload <> ""
    /\ (1 <= cc_budget payload)%Q
    /\ (exists b, balance = Some b /\ (cc_budget payload <= b)%Q)
    /\ 10 <= String.length (cc_creative_text payload) <= 2000
    /\ (exists s e, parse (cc_start_date payload) = Some s
                    /\ parse (cc_end_date payload) = Some e /\ (s < e)%Z)
    /\ cc_creative_images payload <> Some []
    /\ (forall l u, cc_creative_images payload = Some l -> In u l ->
                    is_url u = true)
    /\ cc_creative_video_url payload <> Some ""
    /\ (forall u, cc_creative_video_url payload = Some u -> is_url u = true).
Proof.
  intros balance server data payload. unfold submit.
  rewrite requests_handleSubmit.
  destruct (createCampaignSchema is_url parse data) eqn:Hschema; [| intros []].
  unfold createCampaignSchema, z_refine in Hschema.
  rewrite (existsb_fatal_false _ (fields_nonfatal is_url data)) in Hschema.
  apply app_eq_nil in Hschema as [Hfields Hdates].
  apply fields_nil in Hfields as (Hch & Hbudget & Htext & Himg & Hvid).
  assert (exists s e, parse (start_date data) = Some s
                      /\ parse (end_date data) = Some e /\ (s < e)%Z) as Hse.
  { apply end_after_start.
    destruct (JS.gt _ _); [reflexivity | discriminate Hdates]. }
  unfold onSubmit.
  destruct (hasEnoughBalance balance (budget data)) eqn:Hbal; cbn [negb calls];
    [| intros []].
  intros Hin.
  assert (createCampaign payload
          = createCampaign
              {| cc_channel_id := channel_id data;
                 cc_budget := budget data;
                 cc_start_date := start_date data;
                 cc_end_date := end_date data;
                 cc_ad_format := ad_format data;
                 cc_creative_text := creative_text data;
                 cc_creative_images :=
                   match creative_images data with
                   | Some (u :: l) => Some (u :: l)
                   | _ => None
                   end;
                 cc_creative_video_url :=
                   if JS.truthy (creative_video_url data)
                   then creative_video_url data else None |}) as Heq.
  { destruct (server _); cbn in Hin; destruct Hin as [<- | []]; reflexivity. }
  injection Heq as ->. cbn.
  split; [exact Hch |]. split; [exact Hbudget |]. split.
  { unfold hasEnoughBalance in Hbal. destruct balance as [b|];
      [| discriminate Hbal]. exists b. split; [reflexivity |].
    now apply Qle_bool_iff. }
  split; [exact Htext |]. split; [exact Hse |]. split.
  { destruct (creative_images data) as [[| u l] |]; discriminate. }
  split.
  { intros l u Hl Hu. destruct (creative_images data) as [[| u0 l0] |] eqn:Hci;
      try discriminate Hl. injection Hl as <-.
    specialize (Himg _ eq_refl). rewrite List.Forall_forall in Himg.
    now apply Himg. }
  split.
  { destruct (creative_video_url data) as [[| c v] |]; cbn; discriminate. }
  intros u Hu. destruct (creative_video_url data) as [[| c v] |] eqn:Hv;
    cbn in Hu; try discriminate Hu. injection Hu as <-.
  destruct (Hvid _ eq_refl) as [[=] | Hok]. exact Hok.
Qed.


End CreatePayload.

Lemma create_payload_wellformed_witness :
  cc_channel_id
    {| cc_channel_id := "ch-1"; cc_budget := 10000;
       cc_start_date := "2025-01-01"; cc_end_date := "2025-01-08";
       cc_ad_format := post;
       cc_creative_text := "Spring sale: everything 20% off";
       cc_creative_images := None; cc_creative_video_url := None |} <> "".
Proof.
  apply (create_payload_wellformed (fun _ => true) Samples.parse (Some 50000%Q)
           (fun _ => Resolved "c-1") (Samples.form "2025-01-01" "2025-01-08")).
  left. reflexivity.
Defined.


(** Two of three entries survive: the middle one is not a URL. *)
Example images_sample :
  CreateCampaignInputs.handleImagesChange Samples.is_url
    "https://a/1.png , not a url,https://a/2.png"
  = ["https://a/1.png"; "https://a/2.png"].
Proof. reflexivity. Qed.

(** ** The Resolve button and the refund amount *)

Section ResolveButton.

Import DisputeDetailsPage.

Variable parseFloat : string -> JS.num.

Lemma trimStart_cases (s : string) :
  (trimStart s = "" /\ Forall (fun c => is_white_space c = true)
                         (list_ascii_of_string s))
  \/ exists c t, trimStart s = String c t /\ is_white_space c = false
                 /\ In c (list_ascii_of_string s).
Proof.
  induction s as [| c s IH]; cbn [trimStart list_ascii_of_string].
  - left. split; [reflexivity | constructor].
  - destruct (is_white_space c) eqn:Hc.
    + destruct IH as [[-> Hall] | (c' & t & -> & Hc' & Hin)].
      * left. split; [reflexivity | now constructor].
      * right. exists c', t. split; [reflexivity |]. split; [exact Hc' |].
        now right.
    + right. exists c, s. split; [reflexivity |]. split; [exact Hc |]. now left.
Qed.

Lemma trimEnd_nonempty (c : ascii) (t : string) :
  is_white_space c = false -> trimEnd (String c t) <> "".
Proof.
  intros Hc. cbn [trimEnd]. destruct (trimEnd t); [now rewrite Hc | discriminate].
Qed.

(** The notes are blank: nothing but white space. *)
Lemma trim_blank (s : string) :
  trim s = "" <->
  Forall (fun c => is_white_space c = true) (list_ascii_of_string s).
Proof.
  unfold trim. destruct (trimStart_cases s) as [[-> Hall] | (c & t & -> & Hc & Hin)].
  - split; [intros _; exact Hall | reflexivity].
  - split.
    + intros H. now apply trimEnd_nonempty in H.
    + intros Hall. rewrite List.Forall_forall in Hall.
      apply Hall in Hin. congruence.
Qed.

(** X14: a click on Resolve sends a request exactly when no request is being
    processed, the dispute has been found, and the notes contain a character
    that is not white space. *)
Theorem resolve_request_condition :
  forall (server : ApiCall -> Response) (st : State),
    calls (clickResolve parseFloat server st) <> [] <->
    isProcessing st = false
    /\ dispute st <> None
    /\ exists c, In c (list_ascii_of_string (notes st))
                 /\ is_white_space c = false.
Proof.
  intros server st. unfold clickResolve, resolve_disabled.
  assert (String.eqb (trim (notes st)) "" = false <->
          exists c, In c (list_ascii_of_string (notes st))
                    /\ is_white_space c = false) as Hnotes.
  { rewrite String.eqb_neq, trim_blank, <- List.Exists_Forall_neg
      by (intros c; destruct (is_white_space c); auto).
    rewrite List.Exists_exists. split.
    - intros (c & Hin & Hc). exists c. split; [exact Hin |].
      now destruct (is_white_space c).
    - intros (c & Hin & Hc). exists c. split; [exact Hin | congruence]. }
  destruct (isProcessing st); cbn [orb].
  - split; [intros H; now elim H | intros [[=] _]].
  - destruct (String.eqb (trim (notes st)) "") eqn:Hblank.
    + split; [intros H; now elim H |].
      intros (_ & _ & Hc). apply Hnotes in Hc. discriminate Hc.
    + unfold handleResolve. destruct (dispute st) as [d|].
      * split; [| discriminate].
        intros _. split; [reflexivity |]. split; [discriminate |].
        now apply Hnotes.
      * split; [intros H; now elim H | intros (_ & H & _); now elim H].
Qed.

(** X15: the refund amount is sent only with a partial refund, and then as
    [parseFloat] reads the field, without any check; with another decision
    the request is the same whatever the field holds. *)
Theorem refund_amount_only_partial :
  forall (server : ApiCall -> Response) (st : State) (amount : string),
    let st' := {| dispute := dispute st; decision := decision st;
                  notes := notes st; refundAmount := amount;
                  isProcessing := isProcessing st |} in
    (decision st <> partial_refund ->
     calls (clickResolve parseFloat server st')
     = calls (clickResolve parseFloat server st)) /\
    (decision st = partial_refund ->
     forall key payload,
       In (resolveDispute key payload)
          (calls (clickResolve parseFloat server st')) ->
       rs_refund_amount payload = Some (parseFloat amount)).
Proof.
  intros server st amount st'. subst st'.
  unfold clickResolve, resolve_disabled, handleResolve.
  cbn [dispute decision notes refundAmount isProcessing].
  destruct (isProcessing st || String.eqb (trim (notes st)) "");
    [split; [reflexivity | intros _ key payload []] |].
  destruct (dispute st) as [d|]; [| split; [reflexivity | intros _ key payload []]].
  split.
  - intros Hdec. destruct (decision st); [| | now elim Hdec];
      cbn [calls]; f_equal; destruct (server _); reflexivity.
  - intros -> key payload Hin. cbn [calls] in Hin.
    destruct (server _); cbn in Hin; destruct Hin as [[= <- <-] | []];
      reflexivity.
Qed.

End ResolveButton.

Lemma resolve_request_condition_witness :
  calls (DisputeDetailsPage.clickResolve (fun _ => JS.NaN)
           (fun _ => Resolved "c-1") Samples.page) <> [].
Proof.
  apply (proj2 (resolve_request_condition (fun _ => JS.NaN)
                  (fun _ => Resolved "c-1") Samples.page)).
  split; [reflexivity |]. split; [discriminate |].
  exists "N"%char. split; [left; reflexivity | reflexivity].
Defined.

Lemma refund_amount_only_partial_witness :
  calls (DisputeDetailsPage.clickResolve (fun _ => JS.NaN)
           (fun _ => Resolved "c-1")
           {| DisputeDetailsPage.dispute := Some Samples.dispute;
              DisputeDetailsPage.decision := refund;
              DisputeDetailsPage.notes := "No proof of placement";
              DisputeDetailsPage.refundAmount := "2500";
              DisputeDetailsPage.isProcessing := false |})
  = calls (DisputeDetailsPage.clickResolve (fun _ => JS.NaN)
             (fun _ => Resolved "c-1") Samples.page).
Proof.
  apply (proj1 (refund_amount_only_partial (fun _ => JS.NaN)
                  (fun _ => Resolved "c-1") Samples.page "2500")).
  discriminate.
Defined.

(** ** From a row of the dispute table to the request *)

Section Route.

Import DisputeDetailsPage DisputeRoute.

Variable parseFloat : string -> JS.num.




End Route.


(** ** Badges of the dispute table *)

Section DisputeBadges.

Import StatusBadge.

(** X17: in the dispute table a status that is no name inherited from the
    prototype gets the badge of its entry when it is open, in_review,
    resolved or closed, and the badge Open otherwise. *)
Theorem dispute_badge :
  forall d : DisputeDetailsPage.Dispute,
    DisputeDetailsPage.status d ∉ Object_prototype ->
    DisputeTable.statusBadge d
    = let s := DisputeDetailsPage.status d in
      if String.eqb s "in_review"
      then {| badge_variant := Some outline; badge_text := Some "In Review" |}
      else if String.eqb s "resolved"
      then {| badge_variant := Some default_; badge_text := Some "Resolved" |}
      else if String.eqb s "closed"
      then {| badge_variant := Some secondary; badge_text := Some "Closed" |}
      else {| badge_variant := Some destructive; badge_text := Some "Open" |}.
Proof.
  intros d Hproto. cbn zeta.
  unfold DisputeTable.statusBadge, DisputeTable.statusInfo, get.
  rewrite decide_False by exact Hproto.
  unfold DisputeTable.statusConfig. cbn [list_to_map foldr curry fst snd].
  destruct (String.eqb_spec (DisputeDetailsPage.status d) "in_review") as [-> | H1];
    [vm_compute; reflexivity |].
  destruct (String.eqb_spec (DisputeDetailsPage.status d) "resolved") as [-> | H2];
    [vm_compute; reflexivity |].
  destruct (String.eqb_spec (DisputeDetailsPage.status d) "closed") as [-> | H3];
    [vm_compute; reflexivity |].
  destruct (String.eqb_spec (DisputeDetailsPage.status d) "open") as [-> | H4];
    [vm_compute; reflexivity |].
  rewrite !lookup_insert_ne, lookup_empty by congruence.
  vm_compute. reflexivity.
Qed.

(** X18: a campaign of one of the seven known statuses gets, on the card
    and on the details page alike, a badge with the label and the variant of
    its entry; no known status is drawn empty or as another one. *)
Theorem known_status_badge :
  forall (campaign : Types.Campaign) (l : string) (v : Variant),
    In (Types.status campaign, l, v)
       [("pending", "Pending", outline); ("accepted", "Accepted", default_);
        ("rejected", "Rejected", destructive);
        ("in_progress", "In Progress", default_);
        ("completed", "Completed", default_);
        ("disputed", "Disputed", destructive);
        ("cancelled", "Cancelled", outline)] ->
    CampaignCard.statusBadge campaign
    = {| badge_variant := Some v; badge_text := Some l |}
    /\ CampaignDetails.statusBadge campaign
       = {| badge_variant := Some v; badge_text := Some l |}.
Proof.
  intros campaign l v Hin.
  unfold CampaignCard.statusBadge, CampaignCard.statusInfo,
    CampaignDetails.statusBadge, CampaignDetails.statusInfo.
  cbn [In] in Hin.
  repeat (destruct Hin as [[= Hs <- <-] | Hin];
          [rewrite <- Hs; split; vm_compute; reflexivity |]).
  destruct Hin.
Qed.

End DisputeBadges.

Lemma dispute_badge_witness :
  DisputeTable.statusBadge Samples.dispute
  = {| StatusBadge.badge_variant := Some StatusBadge.destructive;
       StatusBadge.badge_text := Some "Open" |}.
Proof.
  apply (dispute_badge Samples.dispute).
  refine (proj1 (bool_decide_eq_false _) _). vm_compute. reflexivity.
Defined.

Lemma known_status_badge_witness :
  CampaignCard.statusBadge (Samples.campaign "disputed")
  = {| StatusBadge.badge_variant := Some StatusBadge.destructive;
       StatusBadge.badge_text := Some "Disputed" |}
  /\ CampaignDetails.statusBadge (Samples.campaign "disputed")
     = {| StatusBadge.badge_variant := Some StatusBadge.destructive;
          StatusBadge.badge_text := Some "Disputed" |}.
Proof.
  apply (known_status_badge (Samples.campaign "disputed")).
  do 5 right. left. reflexivity.
Defined.

Lemma unknown_status_falls_back_witness :
  CampaignCard.statusBadge (Samples.campaign "archived")
  = StatusBadge.pending_badge
  /\ CampaignDetails.statusBadge (Samples.campaign "archived")
     = StatusBadge.pending_badge.
Proof.
  apply (unknown_status_falls_back (Samples.campaign "archived")).
  - unfold StatusBadge.known_statuses. cbn. intuition discriminate.
  - refine (proj1 (bool_decide_eq_false _) _). vm_compute. reflexivity.
Defined.

(** ** Filtering the campaign list *)

Section ListFilter.

Import Types CampaignLists.

Variable creative_text : Campaign -> string.

Lemma toLowerCase_empty (s : string) : toLowerCase s = "" <-> s = "".
Proof. destruct s; cbn; split; congruence. Qed.

Lemma filteredCampaigns_filter (campaigns : list Campaign)
  (statusFilter searchQuery : string) :
  filteredCampaigns creative_text (Some campaigns) statusFilter searchQuery
  = List.filter
      (fun c => (String.eqb statusFilter "all"
                 || String.eqb (status c) statusFilter)
                && (String.eqb searchQuery ""
                    || matches_query creative_text (toLowerCase searchQuery) c))
      campaigns.
Proof.
  unfold filteredCampaigns, matches_query.
  destruct (String.eqb statusFilter "all"), (String.eqb searchQuery "");
    cbn [negb orb andb].
  - induction campaigns as [| c l IH]; cbn; [reflexivity | now rewrite <- IH].
  - apply List.filter_ext. intros c. reflexivity.
  - apply List.filter_ext. intros c. now rewrite andb_true_r.
  - induction campaigns as [| c l IH]; cbn [List.filter]; [reflexivity |].
    destruct (String.eqb (status c) statusFilter); cbn [List.filter andb];
      [destruct (_ || _); now rewrite IH | exact IH].
Qed.

(** X19: the page lists exactly the loaded campaigns that have the chosen
    status (any status for "all") and whose identifier or creative text
    contains the query without regard to case (any campaign for the empty
    query), in the order they were loaded; two queries that differ only in
    case list the same campaigns, and nothing is listed before the campaigns
    are loaded. *)
Theorem campaign_search :
  forall (campaigns : list Campaign) (statusFilter searchQuery : string),
    (forall c,
       In c (filteredCampaigns creative_text (Some campaigns) statusFilter
               searchQuery) <->
       In c campaigns
       /\ (statusFilter = "all" \/ status c = statusFilter)
       /\ (searchQuery = ""
           \/ includes (toLowerCase (id c)) (toLowerCase searchQuery) = true
           \/ includes (toLowerCase (creative_text c))
                       (toLowerCase searchQuery) = true)) /\
    sublist (filteredCampaigns creative_text (Some campaigns) statusFilter
               searchQuery) campaigns /\
    (forall searchQuery',
       toLowerCase searchQuery' = toLowerCase searchQuery ->
       filteredCampaigns creative_text (Some campaigns) statusFilter searchQuery'
       = filteredCampaigns creative_text (Some campaigns) statusFilter
           searchQuery) /\
    filteredCampaigns creative_text None statusFilter searchQuery = [].
Proof.
  intros campaigns statusFilter searchQuery.
  split; [| split; [| split; [| reflexivity]]].
  - intros c. rewrite filteredCampaigns_filter, filter_In.
    unfold matches_query.
    rewrite andb_true_iff, !orb_true_iff, !String.eqb_eq.
    intuition congruence.
  - rewrite filteredCampaigns_filter.
    induction campaigns as [| c l IH]; cbn [List.filter]; [constructor |].
    destruct (_ && _); [apply sublist_skip, IH | apply sublist_cons, IH].
  - intros searchQuery' Hq. rewrite !filteredCampaigns_filter.
    apply List.filter_ext. intros c. rewrite Hq. f_equal. f_equal.
    destruct (String.eqb_spec searchQuery' ""), (String.eqb_spec searchQuery "");
      try reflexivity; subst; cbn [toLowerCase] in Hq.
    + symmetry in Hq. apply (proj1 (toLowerCase_empty _)) in Hq. contradiction.
    + apply (proj1 (toLowerCase_empty _)) in Hq. contradiction.
Qed.

End ListFilter.

Lemma campaign_search_witness :
  CampaignLists.filteredCampaigns (fun _ => "Spring sale: everything 20% off")
    (Some [Samples.campaign "pending"; Samples.campaign "accepted"])
    "pending" "SPRING"
  = CampaignLists.filteredCampaigns
      (fun _ => "Spring sale: everything 20% off")
      (Some [Samples.campaign "pending"; Samples.campaign "accepted"])
      "pending" "spring".
Proof.
  apply (proj1 (proj2 (proj2
           (campaign_search (fun _ => "Spring sale: everything 20% off")
              [Samples.campaign "pending"; Samples.campaign "accepted"]
              "pending" "spring"))) "SPRING").
  reflexivity.
Defined.

(** The search finds the sale among the pending campaigns. *)
Example campaign_search_sample :
  CampaignLists.filteredCampaigns (fun _ => "Spring sale: everything 20% off")
    (Some [Samples.campaign "pending"; Samples.campaign "accepted"])
    "pending" "SPRING"
  = [Samples.campaign "pending"].
Proof. reflexivity. Qed.

(** ** The counters of the dashboard *)

Section Dashboard.

Import Types CampaignLists.



End Dashboard.

